(** * DayMaster: a shallow embedding of [streamlit_app.py]

    The planner keeps one list of activities in the Streamlit session state.
    A page run reads the widget values, possibly appends to or sorts that
    list, and writes elements to the page.  This file embeds

    - the fragment of Python's [re] that [validate_time_format] uses,
    - the fragment of [datetime] that [calculate_duration] uses,
    - the five page functions and [main] as programs of a small state and
      exception monad over the session and the rendered page,

    and then states and proves the properties of the specification.

    Text.  A Python [str] is modelled by the [string] of its UTF-8 bytes.
    The operations the program applies to user text are emptiness, [>=],
    concatenation, and matching against patterns whose literals and classes
    are ASCII; all of these agree on a text and on its UTF-8 encoding
    (bytes of non-ASCII characters are above 127, and byte order is code
    point order).  The class [\d] of [strptime] is taken to be [0-9]: it
    differs from Python's only on non-ASCII digits, which
    [validate_time_format] rejects. *)

From Stdlib Require Import ZArith Lia List String Ascii Bool Btauto.
From Stdlib Require Import Permutation Sorted DecimalString.
Import ListNotations.

Local Open Scope string_scope.
Local Open Scope bool_scope.

(** The line feed character, Python's ["\n"]. *)
Definition LF : ascii := "010"%char.

(** ** Results of fallible library calls *)

Inductive exn : Type :=
| ValueError.

Inductive result (A : Type) : Type :=
| Ok (a : A)
| Raise (e : exn).

Arguments Ok {A} a.
Arguments Raise {A} e.

Definition result_bind {A B : Type} (r : result A) (f : A -> result B)
  : result B :=
  match r with
  | Ok a => f a
  | Raise e => Raise e
  end.

(** ** The fragment of [re] in use

    Patterns without repetition: anchors, literals, character classes,
    sequence, alternation, the greedy option [?] and named groups.  The
    matcher is the backtracking one of [re.match]: it starts at position 0,
    tries the left alternative first and the present option first, and hands
    the position, the rest of the subject and the groups captured so far to
    its continuation. *)

Module Re.

Inductive regex : Type :=
| Bol                                  (* ^ *)
| Eol                                  (* $ *)
| Chr (c : ascii)                      (* a literal character *)
| Cls (items : list (ascii * ascii))   (* [a-bc-d...] *)
| Cat (r1 r2 : regex)                  (* r1r2 *)
| Alt (r1 r2 : regex)                  (* r1|r2 *)
| Opt (r : regex)                      (* r? *)
| Grp (name : string) (r : regex).     (* (?P<name>r) *)

(** The items of a class: a range [lo-hi], or a single character. *)
Definition range (lo hi : ascii) : ascii * ascii := (lo, hi).
Definition single (c : ascii) : ascii * ascii := (c, c).

Definition in_range (c : ascii) (it : ascii * ascii) : bool :=
  (N_of_ascii (fst it) <=? N_of_ascii c)%N
  && (N_of_ascii c <=? N_of_ascii (snd it))%N.

Definition in_class (c : ascii) (items : list (ascii * ascii)) : bool :=
  existsb (in_range c) items.

(** A match object: where the match ends and what the named groups hold. *)
Record match_object : Type := MatchObject {
  m_end : nat;
  groupdict : list (string * string)
}.

Definition cont : Type := nat -> string -> list (string * string) -> option match_object.

(** [$] without [re.MULTILINE]: at the end of the subject, or just before a
    line feed that is the last character of the subject. *)
Definition at_eol (s : string) : bool :=
  match s with
  | EmptyString => true
  | String c EmptyString => Ascii.eqb c LF
  | String _ (String _ _) => false
  end.

Fixpoint exec (r : regex) (pos : nat) (s : string)
         (gs : list (string * string)) (k : cont) : option match_object :=
  match r with
  | Bol => if Nat.eqb pos 0 then k pos s gs else None
  | Eol => if at_eol s then k pos s gs else None
  | Chr c =>
      match s with
      | String c' s' => if Ascii.eqb c' c then k (S pos) s' gs else None
      | EmptyString => None
      end
  | Cls items =>
      match s with
      | String c' s' => if in_class c' items then k (S pos) s' gs else None
      | EmptyString => None
      end
  | Cat r1 r2 => exec r1 pos s gs (fun pos' s' gs' => exec r2 pos' s' gs' k)
  | Alt r1 r2 =>
      match exec r1 pos s gs k with
      | Some m => Some m
      | None => exec r2 pos s gs k
      end
  | Opt r1 =>
      match exec r1 pos s gs k with
      | Some m => Some m
      | None => k pos s gs
      end
  | Grp name r1 =>
      exec r1 pos s gs
           (fun pos' s' gs' => k pos' s' ((name, substring 0 (pos' - pos) s) :: gs'))
  end.

(** [re.match(pattern, subject)] *)
Definition rmatch (r : regex) (s : string) : option match_object :=
  exec r 0 s [] (fun pos _ gs => Some (MatchObject pos gs)).

(** [found[name]] *)
Fixpoint group (name : string) (gs : list (string * string)) : option string :=
  match gs with
  | [] => None
  | (n, v) :: gs' => if String.eqb n name then Some v else group name gs'
  end.

(** The same matcher deciding only whether a match exists. *)
Fixpoint accepts (r : regex) (pos : nat) (s : string)
         (k : nat -> string -> bool) : bool :=
  match r with
  | Bol => Nat.eqb pos 0 && k pos s
  | Eol => at_eol s && k pos s
  | Chr c =>
      match s with
      | String c' s' => Ascii.eqb c' c && k (S pos) s'
      | EmptyString => false
      end
  | Cls items =>
      match s with
      | String c' s' => in_class c' items && k (S pos) s'
      | EmptyString => false
      end
  | Cat r1 r2 => accepts r1 pos s (fun pos' s' => accepts r2 pos' s' k)
  | Alt r1 r2 => accepts r1 pos s k || accepts r2 pos s k
  | Opt r1 => accepts r1 pos s k || k pos s
  | Grp _ r1 => accepts r1 pos s k
  end.

Definition is_match (o : option match_object) : bool :=
  match o with
  | Some _ => true
  | None => false
  end.

End Re.

Import Re.

Definition digit_0_9 : regex := Cls [range "0" "9"].

(** ** Utility functions of the application *)

(** [r"^(2[0-3]|[01]?[0-9]):([0-5][0-9])$"]; the two groups are unnamed in
    the source and never read, sequence alone stands for them. *)
Definition time_pattern : regex :=
  Cat Bol
 (Cat (Alt (Cat (Chr "2") (Cls [range "0" "3"]))
           (Cat (Opt (Cls [single "0"; single "1"])) digit_0_9))
 (Cat (Chr ":")
 (Cat (Cat (Cls [range "0" "5"]) digit_0_9)
      Eol))).

Definition validate_time_format (time_str : string) : bool :=
  is_match (rmatch time_pattern time_str).

(** ** The fragment of [datetime] in use *)

Module Datetime.

Local Open Scope Z_scope.

(** A naive [datetime] with zero microseconds: the proleptic Gregorian
    ordinal of its date and the second of its day. *)
Record datetime : Type := mk_datetime {
  ordinal : Z;
  second_of_day : Z
}.

(** A [timedelta] with zero microseconds, normalised as Python does:
    [0 <= seconds < 86400], the sign is carried by [days]. *)
Record timedelta : Type := mk_timedelta {
  days : Z;
  seconds : Z
}.

Definition total_seconds (d : datetime) : Z :=
  ordinal d * 86400 + second_of_day d.

Definition timedelta_of (total : Z) : timedelta :=
  mk_timedelta (total / 86400) (total mod 86400).

Definition timedelta_days (n : Z) : timedelta := timedelta_of (n * 86400).

(** [a < b] *)
Definition lt (a b : datetime) : bool :=
  total_seconds a <? total_seconds b.

(** [a + d] *)
Definition add (a : datetime) (d : timedelta) : datetime :=
  let t := total_seconds a + (days d * 86400 + seconds d) in
  mk_datetime (t / 86400) (t mod 86400).

(** [a - b] *)
Definition sub (a b : datetime) : timedelta :=
  timedelta_of (total_seconds a - total_seconds b).

(** [date(1900, 1, 1).toordinal()], the date [strptime] fills in when the
    format has no date directive. *)
Definition ordinal_1900_01_01 : Z := 693596.

(** [int(text)] on a text of ASCII digits. *)
Definition digit_value (c : ascii) : option Z :=
  if in_class c [range "0" "9"]
  then Some (Z.of_N (N_of_ascii c) - 48)
  else None.

Fixpoint int_digits (acc : Z) (s : string) : result Z :=
  match s with
  | EmptyString => Ok acc
  | String c s' =>
      match digit_value c with
      | Some d => int_digits (10 * acc + d) s'
      | None => Raise ValueError
      end
  end.

Definition int (s : string) : result Z :=
  match s with
  | EmptyString => Raise ValueError
  | String _ _ => int_digits 0 s
  end.

(** The regular expression [_strptime] builds for the format ["%H:%M"]:
    [(?P<H>2[0-3]|[0-1]\d|\d):(?P<M>[0-5]\d|\d)]. *)
Definition format_regex_H_M : regex :=
  Cat (Grp "H" (Alt (Cat (Chr "2") (Cls [range "0" "3"]))
               (Alt (Cat (Cls [range "0" "1"]) digit_0_9)
                    digit_0_9)))
 (Cat (Chr ":")
      (Grp "M" (Alt (Cat (Cls [range "0" "5"]) digit_0_9)
                    digit_0_9))).

Definition group_int (name : string) (gs : list (string * string)) : result Z :=
  match group name gs with
  | Some v => int v
  | None => Raise ValueError
  end.

(** [datetime.strptime(data_string, "%H:%M")]: the format's expression must
    match at the start, and the match must use up the whole text
    ("unconverted data remains" otherwise). *)
Definition strptime_H_M (data_string : string) : result datetime :=
  match rmatch format_regex_H_M data_string with
  | None => Raise ValueError
  | Some found =>
      if negb (Nat.eqb (String.length data_string) (m_end found))
      then Raise ValueError
      else
        result_bind (group_int "H" (groupdict found)) (fun hour =>
        result_bind (group_int "M" (groupdict found)) (fun minute =>
        Ok (mk_datetime ordinal_1900_01_01 (hour * 3600 + minute * 60))))
  end.

End Datetime.

Definition calculate_duration (start_time end_time : string) : result Z :=
  result_bind (Datetime.strptime_H_M start_time) (fun start =>
  result_bind (Datetime.strptime_H_M end_time) (fun end_ =>
  (* Handle scenarios where end time is on the next day *)
  let end_ := if Datetime.lt end_ start
              then Datetime.add end_ (Datetime.timedelta_days 1)
              else end_ in
  let duration := (Datetime.seconds (Datetime.sub end_ start) / 60)%Z in
  Ok duration)).

(** ** Well-formed clock texts

    The texts the validator is meant to accept, written out character by
    character: an hour 0-23 of one or two digits (a leading zero only in
    front of a single digit), a colon, a minute 00-59 of two digits. *)

Definition is_digit (c : ascii) : bool := in_class c [range "0" "9"].

Definition hour_digits (h1 h2 : ascii) : bool :=
  (Ascii.eqb h1 "2" && in_class h2 [range "0" "3"])
  || (in_class h1 [single "0"; single "1"] && is_digit h2).

Definition minute_digits (m1 m2 : ascii) : bool :=
  in_class m1 [range "0" "5"] && is_digit m2.

Definition well_formed_time (s : string) : bool :=
  match s with
  | String h (String c (String m1 (String m2 EmptyString))) =>
      is_digit h && Ascii.eqb c ":" && minute_digits m1 m2
  | String h1 (String h2 (String c (String m1 (String m2 EmptyString)))) =>
      hour_digits h1 h2 && Ascii.eqb c ":" && minute_digits m1 m2
  | _ => false
  end.

(** [s] without its last character when that is a line feed. *)
Fixpoint chomp (s : string) : option string :=
  match s with
  | EmptyString => None
  | String c EmptyString => if Ascii.eqb c LF then Some EmptyString else None
  | String c s' => option_map (String c) (chomp s')
  end.

Definition well_formed_time_nl (s : string) : bool :=
  match chomp s with
  | Some t => well_formed_time t
  | None => false
  end.


(** ** The Python list method [sort] *)

Module PyList.

Section Sort.

Context {A : Type} (key : A -> Z).

Fixpoint insert (x : A) (l : list A) : list A :=
  match l with
  | [] => [x]
  | y :: l' => if (key x <=? key y)%Z then x :: y :: l' else y :: insert x l'
  end.

(** A stable sort by ascending key. *)
Definition sort_ascending (l : list A) : list A := fold_right insert [] l.

(** [l.sort(key=key, reverse=reverse)].  As in CPython, a reverse sort
    reverses the list, sorts it forward and reverses the result. *)
Definition sort (reverse : bool) (l : list A) : list A :=
  if reverse then rev (sort_ascending (rev l)) else sort_ascending l.

End Sort.

End PyList.

(** ** Text of numbers: [str(n)] *)

Definition str_nat (n : nat) : string := NilZero.string_of_uint (Nat.to_uint n).
Definition str_int (z : Z) : string := NilZero.string_of_int (Z.to_int z).

(** ** The session state, the page and the widgets *)

Inductive Priority : Type := High | Medium | Low.

Definition priority_text (p : Priority) : string :=
  match p with
  | High => "High"
  | Medium => "Medium"
  | Low => "Low"
  end.

(** The dictionary appended by [add_activity]; its keys are the fields. *)
Record Activity : Type := mk_activity {
  name : string;
  start_time : string;
  end_time : string;
  priority : Priority;
  duration : Z
}.

(** What a run of the script puts on the page, in order. *)
Inductive element : Type :=
| st_header (body divider : string)
| st_sidebar_header (body : string)
| st_write (body : string)
| st_info (body : string)
| st_success (body : string)
| st_warning (body : string)
| st_error (body : string)
| st_divider.

(** The options of the sidebar radio. *)
Inductive Page : Type :=
| Add_a_New_Activity
| View_Activities
| Prioritize_and_Summarize.

(** The values the widgets return in one run of the script. *)
Record widgets : Type := mk_widgets {
  w_page : Page;
  w_activity_name : string;
  w_start_time : string;
  w_end_time : string;
  w_priority : Priority;
  w_submitted : bool
}.

(** [st.session_state.activities] and the page rendered so far. *)
Record world : Type := mk_world {
  activities : list Activity;
  rendered : list element
}.

(** A run either returns or stops at an exception; the world it reached is
    kept in both cases. *)
Inductive outcome (A : Type) : Type :=
| Returned (a : A) (w : world)
| Raised (e : exn) (w : world).

Arguments Returned {A} a w.
Arguments Raised {A} e w.

Definition App (A : Type) : Type := world -> outcome A.

Definition ret {A : Type} (a : A) : App A := fun w => Returned a w.

Definition bind {A B : Type} (c : App A) (f : A -> App B) : App B :=
  fun w =>
    match c w with
    | Returned a w' => f a w'
    | Raised e w' => Raised e w'
    end.

Declare Scope app_scope.
Delimit Scope app_scope with app.
Notation "x <- c ;; k" := (bind c (fun x => k))
  (at level 61, c at next level, right associativity) : app_scope.
Notation "c ;; k" := (bind c (fun _ => k))
  (at level 61, right associativity) : app_scope.
Local Open Scope app_scope.

Definition emit (e : element) : App unit :=
  fun w => Returned tt (mk_world (activities w) (rendered w ++ [e])).

Definition get_activities : App (list Activity) :=
  fun w => Returned (activities w) w.

Definition set_activities (l : list Activity) : App unit :=
  fun w => Returned tt (mk_world l (rendered w)).

Definition call {A : Type} (r : result A) : App A :=
  fun w =>
    match r with
    | Ok a => Returned a w
    | Raise e => Raised e w
    end.

Definition world_of {A : Type} (o : outcome A) : world :=
  match o with
  | Returned _ w => w
  | Raised _ w => w
  end.

(** [for i, x in enumerate(l): body] *)
Fixpoint for_enumerate {A : Type} (i : nat) (l : list A)
         (body : nat -> A -> App unit) : App unit :=
  match l with
  | [] => ret tt
  | x :: l' => body i x ;; for_enumerate (S i) l' body
  end.

(** [a >= b] on [str] *)
Definition str_ge (a b : string) : bool := negb (String.ltb a b).

(** ** The messages of the application *)

Definition msg_enter_name : string := "Please enter an activity name.".
Definition msg_invalid_times : string :=
  "Please enter valid start and end times in HH:MM format.".
Definition msg_start_before_end : string :=
  "Start time must be earlier than end time.".
Definition msg_added (activity_name : string) : string :=
  "Activity '" ++ activity_name ++ "' added successfully!".
Definition msg_none_added : string :=
  "No activities added yet. Use the 'Add Activity' button to get started!".
Definition msg_relax : string :=
  "No activities planned? Use this time to relax, reflect, or set some goals!".
Definition msg_great_start : string :=
  "You're off to a great start! Focus and finish strong!".
Definition msg_productive_day : string :=
  "You've got a productive day ahead! Remember to take breaks!".
Definition msg_packed_schedule : string :=
  "You have a packed schedule! Stay organized and take care of yourself.".
Definition msg_breaks_title : string := String LF "**Recommended Breaks**".
Definition msg_break_90 : string :=
  "☕ Take a 10-15 minute break after every 90 minutes of work.".
Definition msg_break_stretch : string :=
  "🧘 Use short pauses to stretch or be lazy between tasks!".
Definition msg_nothing_to_prioritize : string :=
  "No activities to prioritize yet. Start by adding some!".

(** ** App layout *)

Definition add_activity (w : widgets) : App unit :=
  emit (st_write "### Add a New Activity") ;;
  let activity_name := w_activity_name w in
  let start_time := w_start_time w in
  let end_time := w_end_time w in
  let priority := w_priority w in
  let submitted := w_submitted w in
  if submitted then
    if String.eqb activity_name "" then
      emit (st_warning msg_enter_name)
    else if negb (validate_time_format start_time)
            || negb (validate_time_format end_time) then
      emit (st_error msg_invalid_times)
    else if str_ge start_time end_time then
      emit (st_error msg_start_before_end)
    else
      d <- call (calculate_duration start_time end_time) ;;
      acts <- get_activities ;;
      set_activities
        (acts ++ [mk_activity activity_name start_time end_time priority d]) ;;
      emit (st_success (msg_added activity_name))
  else ret tt.

(** The three lines and the divider both listings write per activity. *)
Definition write_activity (i : nat) (activity : Activity) : App unit :=
  emit (st_write ("**" ++ str_nat (i + 1) ++ ". " ++ name activity ++ "**")) ;;
  emit (st_write ("- 🕒 **Time**: " ++ start_time activity ++ " to "
                    ++ end_time activity ++ " "
                    ++ "(" ++ str_int (duration activity) ++ " mins)")) ;;
  emit (st_write ("- ⭐ **Priority**: " ++ priority_text (priority activity))) ;;
  emit st_divider.

Definition display_activities : App unit :=
  emit (st_write "### Your Planned Activities") ;;
  acts <- get_activities ;;
  match acts with
  | _ :: _ => for_enumerate 0 acts write_activity
  | [] => emit (st_info msg_none_added)
  end.

Definition prioritize_activities : App unit :=
  acts <- get_activities ;;
  set_activities (PyList.sort duration true acts) ;;
  emit (st_write "### Suggested Activity Prioritization") ;;
  acts <- get_activities ;;
  for_enumerate 0 acts write_activity.

Definition summary_and_reassurance : App unit :=
  acts <- get_activities ;;
  let total_activities := List.length acts in
  emit (st_write "### Daily Summary") ;;
  emit (st_write ("**Total Activities Planned**: " ++ str_nat total_activities)) ;;
  (* Motivation *)
  (if Nat.eqb total_activities 0 then emit (st_info msg_relax)
   else if Nat.leb total_activities 3 then emit (st_success msg_great_start)
   else if Nat.leb total_activities 6 then emit (st_success msg_productive_day)
   else emit (st_warning msg_packed_schedule)) ;;
  (* Suggest breaks after intensive tasks *)
  if Nat.ltb 0 total_activities then
    emit (st_write msg_breaks_title) ;;
    emit (st_write msg_break_90) ;;
    emit (st_write msg_break_stretch)
  else ret tt.

(** ** Main app function *)

Definition main (w : widgets) : App unit :=
  emit (st_header "DayMaster 📋" "grey") ;;
  emit (st_write "#### Plan, prioritize, and conquer your day! 🌟") ;;
  emit (st_sidebar_header "Navigation") ;;
  match w_page w with
  | Add_a_New_Activity => add_activity w
  | View_Activities => display_activities
  | Prioritize_and_Summarize =>
      acts <- get_activities ;;
      match acts with
      | _ :: _ => prioritize_activities ;; summary_and_reassurance
      | [] => emit (st_info msg_nothing_to_prioritize)
      end
  end.

(** ** Runs of the script

    Streamlit runs the script once per interaction: the page starts empty,
    the session state is the one the previous run left. *)

Definition initial_session : list Activity := [].

Definition script_run (w : widgets) (session : list Activity) : outcome unit :=
  main w (mk_world session []).

(** The session after the interactions [ws], oldest first. *)
Fixpoint session_after (ws : list widgets) (session : list Activity)
  : list Activity :=
  match ws with
  | [] => session
  | w :: ws' => session_after ws' (activities (world_of (script_run w session)))
  end.

(** The pages the interactions [ws] showed, oldest first. *)
Fixpoint pages_shown (ws : list widgets) (session : list Activity)
  : list (list element) :=
  match ws with
  | [] => []
  | w :: ws' =>
      let o := script_run w session in
      rendered (world_of o) :: pages_shown ws' (activities (world_of o))
  end.


(** ** The interface of the specification

    [submitActivity] is the handler of a pressed submit button,
    [computeDuration], [validateTime], [prioritize] and [summarize] are
    [calculate_duration], [validate_time_format], [prioritize_activities]
    and [summary_and_reassurance]. *)

Definition submitActivity (activity_name start_time end_time : string)
           (priority : Priority) : App unit :=
  add_activity
    (mk_widgets Add_a_New_Activity activity_name start_time end_time priority true).

(** The pattern the data model of the specification gives for stored times:
    [^([01][0-9]|2[0-3]):[0-5][0-9]$]. *)
Definition spec_time_pattern : regex :=
  Cat Bol
 (Cat (Alt (Cat (Cls [single "0"; single "1"]) digit_0_9)
           (Cat (Chr "2") (Cls [range "0" "3"])))
 (Cat (Chr ":")
 (Cat (Cat (Cls [range "0" "5"]) digit_0_9)
      Eol))).

Definition matches_spec_pattern (s : string) : bool :=
  is_match (rmatch spec_time_pattern s).

(** The duration as the specification words it: an end that is not later
    than the start is moved to the following day before subtracting. *)
Definition duration_with_rollover (start end_ : Datetime.datetime) : Z :=
  let end_ := if negb (Datetime.lt start end_)
              then Datetime.add end_ (Datetime.timedelta_days 1)
              else end_ in
  (Datetime.seconds (Datetime.sub end_ start) / 60)%Z.

(** The message tier of the summary as the specification words it. *)
Definition summary_tier (count : nat) : element :=
  match count with
  | 0 => st_info msg_relax
  | 1 | 2 | 3 => st_success msg_great_start
  | 4 | 5 | 6 => st_success msg_productive_day
  | _ => st_warning msg_packed_schedule
  end.

Definition break_lines : list element :=
  [st_write msg_break_90; st_write msg_break_stretch].

Definition summary_lines (count : nat) : list element :=
  [st_write "### Daily Summary";
   st_write ("**Total Activities Planned**: " ++ str_nat count);
   summary_tier count]
  ++ match count with
     | 0 => []
     | S _ => st_write msg_breaks_title :: break_lines
     end.

Definition is_tier (e : element) : bool :=
  match e with
  | st_info body => String.eqb body msg_relax
  | st_success body =>
      String.eqb body msg_great_start || String.eqb body msg_productive_day
  | st_warning body => String.eqb body msg_packed_schedule
  | _ => false
  end.

Definition is_break_line (e : element) : bool :=
  match e with
  | st_write body => String.eqb body msg_break_90 || String.eqb body msg_break_stretch
  | _ => false
  end.

Definition is_relax (e : element) : bool :=
  match e with
  | st_info body => String.eqb body msg_relax
  | _ => false
  end.

(** What a listing writes for the activities [l], numbered from [i + 1]. *)
Definition activity_lines (i : nat) (activity : Activity) : list element :=
  [st_write ("**" ++ str_nat (i + 1) ++ ". " ++ name activity ++ "**");
   st_write ("- 🕒 **Time**: " ++ start_time activity ++ " to "
               ++ end_time activity ++ " "
               ++ "(" ++ str_int (duration activity) ++ " mins)");
   st_write ("- ⭐ **Priority**: " ++ priority_text (priority activity));
   st_divider].

Fixpoint listing (i : nat) (l : list Activity) : list element :=
  match l with
  | [] => []
  | activity :: l' => activity_lines i activity ++ listing (S i) l'
  end.

(** What [display_activities] writes. *)
Definition display_lines (session : list Activity) : list element :=
  st_write "### Your Planned Activities"
  :: match session with
     | [] => [st_info msg_none_added]
     | _ :: _ => listing 0 session
     end.

(** What [add_activity] writes above the form. *)
Definition form_title : element := st_write "### Add a New Activity".

(** What [main] writes before it dispatches on the page. *)
Definition banner : list element :=
  [st_header "DayMaster 📋" "grey";
   st_write "#### Plan, prioritize, and conquer your day! 🌟";
   st_sidebar_header "Navigation"].

(** A stored activity whose two times are well-formed clock texts. *)
Definition well_formed_activity (a : Activity) : bool :=
  well_formed_time (start_time a) && well_formed_time (end_time a).

(** ** Clock texts as numbers *)

(** The value of a digit character. *)
Definition digit (c : ascii) : Z := (Z.of_N (N_of_ascii c) - 48)%Z.

(** The minute of the day a text stands for, read the way
    [calculate_duration] reads it; 0 when [strptime] raises. *)
Definition minute_of_day (s : string) : Z :=
  match Datetime.strptime_H_M s with
  | Ok t => (Datetime.second_of_day t / 60)%Z
  | Raise _ => 0%Z
  end.

Definition hour_of_day (s : string) : Z := (minute_of_day s / 60)%Z.

(** ** Predicates on interactions and stored activities *)

Definition page_eqb (a b : Page) : bool :=
  match a, b with
  | Add_a_New_Activity, Add_a_New_Activity => true
  | View_Activities, View_Activities => true
  | Prioritize_and_Summarize, Prioritize_and_Summarize => true
  | _, _ => false
  end.

(** The submit button of the form was pressed in this interaction. *)
Definition submit_pressed (w : widgets) : bool :=
  page_eqb (w_page w) Add_a_New_Activity && w_submitted w.

(** The interactions on which the script stops at an exception: a pressed
    submit button with a name, two accepted times in ascending text order,
    one of them ending in a line feed. *)
Definition raises_on (w : widgets) : bool :=
  submit_pressed w
  && negb (String.eqb (w_activity_name w) "")
  && validate_time_format (w_start_time w)
  && validate_time_format (w_end_time w)
  && negb (str_ge (w_start_time w) (w_end_time w))
  && (well_formed_time_nl (w_start_time w) || well_formed_time_nl (w_end_time w)).

(** What [add_activity] establishes for the dictionary it appends. *)
Definition consistent_activity (a : Activity) : bool :=
  negb (String.eqb (name a) "")
  && String.ltb (start_time a) (end_time a)
  && match calculate_duration (start_time a) (end_time a) with
     | Ok d => Z.eqb d (duration a)
     | Raise _ => false
     end
  && (0 <=? duration a)%Z && (duration a <=? 1439)%Z.

(** * Properties *)

(** ** The matcher *)

Lemma is_match_exec (r : regex) :
  forall pos s gs (k : cont) (kb : nat -> string -> bool),
    (forall pos' s' gs', is_match (k pos' s' gs') = kb pos' s') ->
    is_match (exec r pos s gs k) = accepts r pos s kb.
Proof.
  induction r as [ | | c | items | r1 IH1 r2 IH2 | r1 IH1 r2 IH2 | r1 IH1 | name r1 IH1 ];
    intros pos s gs k kb Hk; simpl.
  - destruct (Nat.eqb pos 0); [apply Hk | reflexivity].
  - destruct (at_eol s); [apply Hk | reflexivity].
  - destruct s as [ | c' s']; [reflexivity | ].
    destruct (Ascii.eqb c' c); [apply Hk | reflexivity].
  - destruct s as [ | c' s']; [reflexivity | ].
    destruct (in_class c' items); [apply Hk | reflexivity].
  - apply IH1. intros pos' s' gs'. now apply IH2.
  - rewrite <- (IH1 pos s gs k kb Hk), <- (IH2 pos s gs k kb Hk).
    now destruct (exec r1 pos s gs k).
  - rewrite <- (IH1 pos s gs k kb Hk), <- (Hk pos s gs).
    now destruct (exec r1 pos s gs k).
  - apply IH1. intros pos' s' gs'. apply Hk.
Qed.

Lemma validate_time_format_accepts (s : string) :
  validate_time_format s = accepts time_pattern 0 s (fun _ _ => true).
Proof.
  unfold validate_time_format, rmatch.
  now apply is_match_exec.
Qed.

Lemma chomp_length (s t : string) :
  chomp s = Some t -> String.length s = S (String.length t).
Proof.
  revert t. induction s as [ | c s IH]; intros t H; simpl in H.
  - discriminate.
  - destruct s as [ | c' s'].
    + destruct (Ascii.eqb c LF); [ | discriminate].
      now injection H as <-.
    + destruct (chomp (String c' s')) as [u | ]; [ | discriminate].
      injection H as <-. simpl. f_equal. now apply IH.
Qed.

Lemma well_formed_time_length (s : string) :
  well_formed_time s = true -> (4 <= String.length s <= 5)%nat.
Proof.
  destruct s as [ | c1 [ | c2 [ | c3 [ | c4 [ | c5 [ | c6 s ] ] ] ] ] ];
    simpl; intros H; try discriminate; lia.
Qed.

Lemma well_formed_time_nl_length (s : string) :
  well_formed_time_nl s = true -> (5 <= String.length s <= 6)%nat.
Proof.
  unfold well_formed_time_nl. destruct (chomp s) as [t | ] eqn:E; [ | discriminate].
  intros H. apply well_formed_time_length in H.
  apply chomp_length in E. lia.
Qed.

Lemma validate_time_format_chars (s : string) :
  validate_time_format s = well_formed_time s || well_formed_time_nl s.
Proof.
  rewrite validate_time_format_accepts.
  destruct s as [ | c1 [ | c2 [ | c3 [ | c4 [ | c5 [ | c6 [ | c7 s ] ] ] ] ] ] ].
  8: { destruct (well_formed_time_nl (String c1 (String c2 (String c3 (String c4
         (String c5 (String c6 (String c7 s)))))))) eqn:E.
       - apply well_formed_time_nl_length in E. simpl in E. lia.
       - cbn -[in_class Ascii.eqb]. btauto. }
  all: unfold well_formed_time_nl; cbn -[in_class Ascii.eqb].
  all: repeat match goal with
         | |- context [Ascii.eqb ?c LF] => destruct (Ascii.eqb c LF)
         end.
  all: cbn -[in_class Ascii.eqb];
    unfold hour_digits, minute_digits, is_digit; btauto.
Qed.

Lemma chomp_spec (s t : string) :
  chomp s = Some t <-> s = t ++ String LF "".
Proof.
  split.
  - revert t. induction s as [ | c s IH]; intros t H; simpl in H.
    + discriminate.
    + destruct s as [ | c' s'].
      * destruct (Ascii.eqb_spec c LF) as [-> | _]; [ | discriminate].
        now injection H as <-.
      * destruct (chomp (String c' s')) as [u | ]; [ | discriminate].
        injection H as <-. simpl. f_equal. now apply IH.
  - intros ->. induction t as [ | c t IH].
    + reflexivity.
    + change (String c t ++ String LF "") with (String c (t ++ String LF "")).
      cbn [chomp]. rewrite IH. now destruct t.
Qed.

(** X1: the texts [validate_time_format] accepts are the well-formed clock
    texts (an hour 0-23 of one or two digits, a colon, a minute 00-59 of two
    digits) and each of them followed by one line feed, nothing else. *)
Lemma validate_time_format_iff (s : string) :
  validate_time_format s = true
  <-> exists t : string,
        well_formed_time t = true /\ (s = t \/ s = t ++ String LF "").
Proof.
  rewrite validate_time_format_chars. unfold well_formed_time_nl. split.
  - intros H. apply orb_prop in H. destruct H as [H | H].
    + exists s. now split; [ | left].
    + destruct (chomp s) as [t | ] eqn:E; [ | discriminate].
      exists t. split; [exact H | right]. now apply chomp_spec.
  - intros (t & Ht & [-> | ->]).
    + now rewrite Ht.
    + assert (E : chomp (t ++ String LF "") = Some t) by now apply chomp_spec.
      rewrite E, Ht. apply orb_true_r.
Qed.

(** ** Characters as numbers *)

Lemma ascii_eqb_N (c d : ascii) :
  Ascii.eqb c d = (N_of_ascii c =? N_of_ascii d)%N.
Proof.
  destruct (Ascii.eqb_spec c d) as [-> | Hne].
  - now rewrite N.eqb_refl.
  - symmetry. apply N.eqb_neq. intros E. apply Hne.
    now rewrite <- (ascii_N_embedding c), <- (ascii_N_embedding d), E.
Qed.

Lemma in_class_range (c lo hi : ascii) :
  in_class c [range lo hi]
  = ((N_of_ascii lo <=? N_of_ascii c)%N && (N_of_ascii c <=? N_of_ascii hi)%N).
Proof. unfold in_class, in_range, range. simpl. apply orb_false_r. Qed.

Lemma in_class_two (c a b : ascii) :
  in_class c [single a; single b]
  = ((N_of_ascii c =? N_of_ascii a)%N || (N_of_ascii c =? N_of_ascii b)%N).
Proof.
  unfold in_class, in_range, single. simpl. rewrite orb_false_r.
  f_equal.
  - destruct (N.eqb_spec (N_of_ascii c) (N_of_ascii a)) as [-> | Hne].
    + now rewrite N.leb_refl.
    + destruct (N.leb_spec (N_of_ascii a) (N_of_ascii c));
      destruct (N.leb_spec (N_of_ascii c) (N_of_ascii a)); simpl; try reflexivity; lia.
  - destruct (N.eqb_spec (N_of_ascii c) (N_of_ascii b)) as [-> | Hne].
    + now rewrite N.leb_refl.
    + destruct (N.leb_spec (N_of_ascii b) (N_of_ascii c));
      destruct (N.leb_spec (N_of_ascii c) (N_of_ascii b)); simpl; try reflexivity; lia.
Qed.

(** Turn every test on a character into a comparison of its code. *)
Ltac char_codes :=
  unfold hour_digits, minute_digits, is_digit, Datetime.digit_value in *;
  rewrite ?in_class_range, ?in_class_two, ?ascii_eqb_N in *;
  change (N_of_ascii "0") with 48%N in *;
  change (N_of_ascii "1") with 49%N in *;
  change (N_of_ascii "2") with 50%N in *;
  change (N_of_ascii "3") with 51%N in *;
  change (N_of_ascii "5") with 53%N in *;
  change (N_of_ascii "9") with 57%N in *;
  change (N_of_ascii ":") with 58%N in *;
  change (N_of_ascii LF) with 10%N in *.

Ltac split_codes :=
  repeat match goal with
    | H : _ && _ = true |- _ => apply andb_prop in H; destruct H
    | H : _ || _ = true |- _ => apply orb_prop in H; destruct H
    | H : (_ <=? _)%N = true |- _ => apply N.leb_le in H
    | H : (_ =? _)%N = true |- _ => apply N.eqb_eq in H
    end.

Ltac decide_codes :=
  repeat match goal with
    | |- context [(?a <=? ?b)%N] =>
        destruct (N.leb_spec a b); try lia; cbn -[Z.mul Z.add Z.sub]
    | |- context [(?a =? ?b)%N] =>
        destruct (N.eqb_spec a b); try lia; cbn -[Z.mul Z.add Z.sub]
    end.

Ltac run_codes :=
  cbn -[in_class Ascii.eqb Z.mul Z.add Z.sub];
  repeat (progress (char_codes; split_codes; decide_codes;
                    cbn -[in_class Ascii.eqb Z.mul Z.add Z.sub])).

Lemma strptime_well_formed (s : string) :
  well_formed_time s = true ->
  exists h m : Z,
    Datetime.strptime_H_M s
    = Ok (Datetime.mk_datetime Datetime.ordinal_1900_01_01 (h * 3600 + m * 60))
    /\ (0 <= h <= 23)%Z /\ (0 <= m <= 59)%Z.
Proof.
  intros H.
  destruct s as [ | c1 [ | c2 [ | c3 [ | c4 [ | c5 [ | c6 s ] ] ] ] ] ];
    try discriminate H; cbn -[in_class Ascii.eqb] in H;
    unfold Datetime.strptime_H_M, rmatch; run_codes;
    (do 2 eexists; split; [reflexivity | split; lia]).
Qed.

Lemma strptime_trailing_newline (s : string) :
  well_formed_time_nl s = true ->
  Datetime.strptime_H_M s = Raise ValueError.
Proof.
  intros H. pose proof (well_formed_time_nl_length s H) as Hlen.
  unfold well_formed_time_nl in H.
  destruct s as [ | c1 [ | c2 [ | c3 [ | c4 [ | c5 [ | c6 [ | c7 s ] ] ] ] ] ] ];
    simpl in Hlen; try lia; cbn -[in_class Ascii.eqb] in H.
  - destruct (Ascii.eqb c5 LF) eqn:E5; [ | discriminate H].
    cbn -[in_class Ascii.eqb] in H.
    unfold Datetime.strptime_H_M, rmatch; run_codes; reflexivity.
  - destruct (Ascii.eqb c6 LF) eqn:E6; [ | discriminate H].
    cbn -[in_class Ascii.eqb] in H.
    unfold Datetime.strptime_H_M, rmatch; run_codes; reflexivity.
Qed.

(** ** Durations *)

Lemma calculate_duration_parsed (s e : string) (start end_ : Datetime.datetime) :
  Datetime.strptime_H_M s = Ok start ->
  Datetime.strptime_H_M e = Ok end_ ->
  calculate_duration s e
  = Ok (Datetime.seconds
          (Datetime.sub
             (if Datetime.lt end_ start
              then Datetime.add end_ (Datetime.timedelta_days 1)
              else end_) start) / 60)%Z.
Proof.
  intros Hs He. unfold calculate_duration. now rewrite Hs, He.
Qed.

(** Moving the end forward by a day does not change the [seconds] of the
    difference: [timedelta] keeps whole days apart. *)
Lemma seconds_sub_add_day (a b : Datetime.datetime) :
  Datetime.seconds (Datetime.sub (Datetime.add a (Datetime.timedelta_days 1)) b)
  = Datetime.seconds (Datetime.sub a b).
Proof.
  unfold Datetime.sub, Datetime.add, Datetime.timedelta_days,
    Datetime.timedelta_of.
  cbn [Datetime.seconds Datetime.days].
  change (1 * 86400 / 86400)%Z with 1%Z.
  change ((1 * 86400) mod 86400)%Z with 0%Z.
  set (t := Datetime.total_seconds a). set (u := Datetime.total_seconds b).
  unfold Datetime.total_seconds at 1.
  cbn [Datetime.ordinal Datetime.second_of_day].
  pose proof (Z.div_mod (t + (1 * 86400 + 0)) 86400 ltac:(lia)) as E.
  replace ((t + (1 * 86400 + 0)) / 86400 * 86400 + (t + (1 * 86400 + 0)) mod 86400)%Z
    with (t + 1 * 86400)%Z by lia.
  replace (t + 1 * 86400 - u)%Z with (t - u + 1 * 86400)%Z by lia.
  apply Z.mod_add. lia.
Qed.

(** The code's strict test and the specification's non-strict one give the
    same number of minutes. *)
Lemma duration_with_rollover_correct (s e : string) (start end_ : Datetime.datetime) :
  Datetime.strptime_H_M s = Ok start ->
  Datetime.strptime_H_M e = Ok end_ ->
  calculate_duration s e = Ok (duration_with_rollover start end_).
Proof.
  intros Hs He. rewrite (calculate_duration_parsed s e start end_ Hs He).
  unfold duration_with_rollover.
  destruct (Datetime.lt end_ start) eqn:E1;
    destruct (Datetime.lt start end_) eqn:E2; cbn [negb];
    now rewrite ?seconds_sub_add_day.
Qed.

Lemma calculate_duration_well_formed (s e : string) :
  well_formed_time s = true ->
  well_formed_time e = true ->
  exists d : Z, calculate_duration s e = Ok d /\ (0 <= d <= 1439)%Z.
Proof.
  intros Hs He.
  destruct (strptime_well_formed s Hs) as (hs & ms & Ps & Hhs & Hms).
  destruct (strptime_well_formed e He) as (he & me & Pe & Hhe & Hme).
  rewrite (calculate_duration_parsed s e _ _ Ps Pe).
  eexists. split; [reflexivity | ].
  unfold Datetime.sub, Datetime.timedelta_of.
  cbn [Datetime.seconds].
  match goal with
  | |- (0 <= ?x mod 86400 / 60 <= 1439)%Z =>
      pose proof (Z.mod_pos_bound x 86400 ltac:(lia)) as Hb;
      generalize dependent (x mod 86400)%Z
  end.
  intros r Hr. split.
  - apply Z.div_pos; lia.
  - enough (r / 60 < 1440)%Z by lia.
    apply Z.div_lt_upper_bound; lia.
Qed.

Lemma calculate_duration_trailing_newline (s e : string) :
  well_formed_time_nl s = true \/ well_formed_time_nl e = true ->
  validate_time_format s = true ->
  validate_time_format e = true ->
  calculate_duration s e = Raise ValueError.
Proof.
  intros Hnl Vs Ve. unfold calculate_duration.
  destruct Hnl as [Hnl | Hnl].
  - now rewrite (strptime_trailing_newline s Hnl).
  - rewrite (strptime_trailing_newline e Hnl).
    rewrite validate_time_format_chars in Vs.
    apply orb_prop in Vs. destruct Vs as [Vs | Vs].
    + destruct (strptime_well_formed s Vs) as (h & m & -> & _). reflexivity.
    + now rewrite (strptime_trailing_newline s Vs).
Qed.

(** C1 (as stated): the code does not return 1440 for equal times. *)
Lemma calculate_duration_equal_times_not_1440 :
  calculate_duration "09:00" "09:00" <> Ok 1440%Z.
Proof. vm_compute. discriminate. Qed.

(** C1 (amended): for two texts that parse to the same time of day the test
    [end < start] is false, the next-day branch is not taken, and
    [calculate_duration] returns 0; so the duration of 09:00 to 09:00 is 0. *)
Theorem calculate_duration_equal_times (s e : string) (t : Datetime.datetime) :
  Datetime.strptime_H_M s = Ok t ->
  Datetime.strptime_H_M e = Ok t ->
  Datetime.lt t t = false /\ calculate_duration s e = Ok 0%Z.
Proof.
  intros Hs He.
  assert (Hlt : Datetime.lt t t = false) by apply Z.ltb_irrefl.
  split; [exact Hlt | ].
  rewrite (calculate_duration_parsed s e t t Hs He), Hlt.
  unfold Datetime.sub, Datetime.timedelta_of. cbn [Datetime.seconds].
  now rewrite Z.sub_diag.
Qed.

Lemma calculate_duration_equal_times_witness :
  Datetime.lt (Datetime.mk_datetime Datetime.ordinal_1900_01_01 32400)
              (Datetime.mk_datetime Datetime.ordinal_1900_01_01 32400) = false
  /\ calculate_duration "09:00" "09:00" = Ok 0%Z.
Proof.
  apply (calculate_duration_equal_times "09:00" "09:00"
           (Datetime.mk_datetime Datetime.ordinal_1900_01_01 32400));
    reflexivity.
Defined.

(** C8: two texts the validator accepts for which [calculate_duration]
    returns no number: a trailing line feed passes [validate_time_format]
    and makes [strptime] raise [ValueError]. *)
Theorem calculate_duration_raises_after_validation :
  validate_time_format ("09:00" ++ String LF "") = true
  /\ validate_time_format "10:00" = true
  /\ calculate_duration ("09:00" ++ String LF "") "10:00" = Raise ValueError.
Proof. repeat split. Qed.

(** C7: the validator accepts a text that is not a clock text, a well-formed
    one followed by a line feed, because [$] also matches just before a
    final line feed. *)
Theorem validate_time_format_accepts_trailing_newline :
  validate_time_format ("09:00" ++ String LF "") = true
  /\ well_formed_time ("09:00" ++ String LF "") = false.
Proof. split; reflexivity. Qed.

Lemma validate_time_format_examples :
  validate_time_format "09:00" = true
  /\ validate_time_format "9:00" = true
  /\ validate_time_format "24:00" = false
  /\ validate_time_format "12:60" = false
  /\ validate_time_format "" = false.
Proof. repeat split. Qed.

Lemma calculate_duration_examples :
  calculate_duration "23:00" "01:00" = Ok 120%Z
  /\ calculate_duration "09:00" "10:30" = Ok 90%Z.
Proof. split; reflexivity. Qed.

(** ** Sorting *)

Section SortFacts.

Context {A : Type} (key : A -> Z).

Let le_key (a b : A) : Prop := (key a <= key b)%Z.
Let ge_key (a b : A) : Prop := (key a >= key b)%Z.
Let has_key (d : Z) (a : A) : bool := (key a =? d)%Z.

Lemma insert_perm (x : A) (l : list A) :
  Permutation (x :: l) (PyList.insert key x l).
Proof.
  induction l as [ | y l IH]; simpl.
  - apply Permutation_refl.
  - destruct (key x <=? key y)%Z.
    + apply Permutation_refl.
    + eapply perm_trans; [apply perm_swap | now apply perm_skip].
Qed.

Lemma sort_ascending_perm (l : list A) :
  Permutation l (PyList.sort_ascending key l).
Proof.
  induction l as [ | x l IH]; simpl.
  - apply perm_nil.
  - eapply perm_trans; [apply perm_skip, IH | apply insert_perm].
Qed.

Lemma insert_sorted (x : A) (l : list A) :
  StronglySorted le_key l -> StronglySorted le_key (PyList.insert key x l).
Proof.
  induction 1 as [ | y l Hl IH Hy]; simpl.
  - constructor; constructor.
  - destruct (Z.leb_spec (key x) (key y)) as [Hxy | Hxy].
    + constructor; [now constructor | ].
      constructor; [exact Hxy | ].
      eapply Forall_impl; [ | exact Hy].
      intros z Hz. unfold le_key in *. lia.
    + constructor; [exact IH | ].
      apply (Permutation_Forall (insert_perm x l)).
      constructor; [unfold le_key; lia | exact Hy].
Qed.

Lemma sort_ascending_sorted (l : list A) :
  StronglySorted le_key (PyList.sort_ascending key l).
Proof.
  induction l as [ | x l IH]; simpl.
  - constructor.
  - now apply insert_sorted.
Qed.

Lemma insert_filter (d : Z) (x : A) (l : list A) :
  filter (has_key d) (PyList.insert key x l) = filter (has_key d) (x :: l).
Proof.
  induction l as [ | y l IH]; [reflexivity | ].
  cbn [PyList.insert].
  destruct (Z.leb_spec (key x) (key y)) as [Hxy | Hxy]; [reflexivity | ].
  cbn [filter] in *. rewrite IH. unfold has_key.
  destruct (Z.eqb_spec (key x) d), (Z.eqb_spec (key y) d); try reflexivity.
  lia.
Qed.

Lemma sort_ascending_filter (d : Z) (l : list A) :
  filter (has_key d) (PyList.sort_ascending key l) = filter (has_key d) l.
Proof.
  induction l as [ | x l IH]; [reflexivity | ].
  cbn [PyList.sort_ascending fold_right].
  fold (PyList.sort_ascending key l).
  rewrite insert_filter. cbn [filter]. now rewrite IH.
Qed.

Lemma rev_sorted (l : list A) :
  StronglySorted le_key l -> StronglySorted ge_key (rev l).
Proof.
  induction 1 as [ | x l Hl IH Hx]; simpl.
  - constructor.
  - assert (Happ : forall l1, StronglySorted ge_key l1 ->
              Forall (fun y => ge_key y x) l1 ->
              StronglySorted ge_key (l1 ++ [x])).
    { induction 1 as [ | z l1 Hl1 IH1 Hz]; intros Hall; simpl.
      - constructor; constructor.
      - inversion Hall as [ | ? ? Hzx Hall']; subst.
        constructor; [now apply IH1 | ].
        apply Forall_app. split; [exact Hz | now constructor]. }
    apply Happ; [exact IH | ].
    apply Forall_rev. eapply Forall_impl; [ | exact Hx].
    intros y Hy. unfold ge_key, le_key in *. lia.
Qed.

(** [sort] with [reverse=True]: a permutation, keys non-increasing, and
    the elements of each key in their original order. *)
Lemma sort_reverse_perm (l : list A) :
  Permutation l (PyList.sort key true l).
Proof.
  unfold PyList.sort.
  eapply perm_trans; [apply Permutation_rev | ].
  eapply perm_trans; [apply sort_ascending_perm | apply Permutation_rev].
Qed.

Lemma sort_reverse_sorted (l : list A) :
  StronglySorted (fun a b => (key a >= key b)%Z) (PyList.sort key true l).
Proof. unfold PyList.sort. apply rev_sorted, sort_ascending_sorted. Qed.

Lemma sort_reverse_stable (d : Z) (l : list A) :
  filter (fun a => (key a =? d)%Z) (PyList.sort key true l)
  = filter (fun a => (key a =? d)%Z) l.
Proof.
  unfold PyList.sort.
  change (fun a => (key a =? d)%Z) with (has_key d).
  now rewrite filter_rev, sort_ascending_filter, filter_rev, rev_involutive.
Qed.

End SortFacts.

(** ** What the page functions do to the world *)

Ltac run_app :=
  unfold bind, emit, get_activities, set_activities, ret, call;
  cbn [activities rendered].

Ltac same_page :=
  cbn [activities rendered]; rewrite <- ?app_assoc; reflexivity.

Lemma for_enumerate_write_activity (l : list Activity) :
  forall (i : nat) (w : world),
    for_enumerate i l write_activity w
    = Returned tt (mk_world (activities w) (rendered w ++ listing i l)).
Proof.
  induction l as [ | a l IH]; intros i w.
  - simpl. unfold ret. rewrite app_nil_r. now destruct w.
  - cbn [for_enumerate listing]. unfold bind at 1.
    unfold write_activity. run_app. rewrite IH. cbn [activities rendered].
    unfold activity_lines. now rewrite <- !app_assoc.
Qed.

Lemma display_activities_run (w : world) :
  display_activities w
  = Returned tt (mk_world (activities w) (rendered w ++ display_lines (activities w))).
Proof.
  unfold display_activities, display_lines. run_app.
  destruct (activities w) as [ | a l] eqn:E.
  - same_page.
  - rewrite for_enumerate_write_activity. same_page.
Qed.

Lemma prioritize_activities_run (w : world) :
  prioritize_activities w
  = Returned tt
      (mk_world (PyList.sort duration true (activities w))
                (rendered w
                 ++ st_write "### Suggested Activity Prioritization"
                 :: listing 0 (PyList.sort duration true (activities w)))).
Proof.
  unfold prioritize_activities. run_app.
  rewrite for_enumerate_write_activity. same_page.
Qed.

Lemma summary_and_reassurance_run (w : world) :
  summary_and_reassurance w
  = Returned tt (mk_world (activities w)
                          (rendered w ++ summary_lines (List.length (activities w)))).
Proof.
  unfold summary_and_reassurance, summary_lines. run_app.
  destruct (List.length (activities w)) as [ | [ | [ | [ | [ | [ | [ | n ] ] ] ] ] ] ];
    cbn [Nat.eqb Nat.leb Nat.ltb summary_tier]; run_app; same_page.
Qed.

(** ** Submitting an activity *)

Lemma submitActivity_run (activity_name start_time end_time : string)
      (priority : Priority) (w : world) :
  submitActivity activity_name start_time end_time priority w
  = if String.eqb activity_name "" then
      Returned tt (mk_world (activities w)
                            (rendered w ++ [form_title; st_warning msg_enter_name]))
    else if negb (validate_time_format start_time)
            || negb (validate_time_format end_time) then
      Returned tt (mk_world (activities w)
                            (rendered w ++ [form_title; st_error msg_invalid_times]))
    else if str_ge start_time end_time then
      Returned tt (mk_world (activities w)
                            (rendered w ++ [form_title; st_error msg_start_before_end]))
    else
      match calculate_duration start_time end_time with
      | Ok d =>
          Returned tt
            (mk_world
               (activities w
                ++ [mk_activity activity_name start_time end_time priority d])
               (rendered w ++ [form_title; st_success (msg_added activity_name)]))
      | Raise e => Raised e (mk_world (activities w) (rendered w ++ [form_title]))
      end.
Proof.
  unfold submitActivity, add_activity, form_title.
  cbn [w_activity_name w_start_time w_end_time w_priority w_submitted].
  run_app.
  destruct (String.eqb activity_name ""); [same_page | ].
  destruct (negb (validate_time_format start_time)
            || negb (validate_time_format end_time)); [same_page | ].
  destruct (str_ge start_time end_time); [same_page | ].
  destruct (calculate_duration start_time end_time); same_page.
Qed.

Lemma add_activity_run (w : widgets) (w0 : world) :
  add_activity w w0
  = if w_submitted w
    then submitActivity (w_activity_name w) (w_start_time w) (w_end_time w)
                        (w_priority w) w0
    else Returned tt (mk_world (activities w0) (rendered w0 ++ [form_title])).
Proof.
  unfold submitActivity, add_activity, form_title.
  cbn [w_activity_name w_start_time w_end_time w_priority w_submitted].
  destruct (w_submitted w); [reflexivity | ].
  run_app. reflexivity.
Qed.

(** The three checks run in the order name, format, ordering. *)
Lemma submitActivity_missing_name (start_time end_time : string)
      (priority : Priority) (w : world) :
  submitActivity "" start_time end_time priority w
  = Returned tt (mk_world (activities w)
                          (rendered w ++ [form_title; st_warning msg_enter_name])).
Proof. now rewrite submitActivity_run. Qed.

Lemma submitActivity_invalid_time (activity_name start_time end_time : string)
      (priority : Priority) (w : world) :
  activity_name <> "" ->
  validate_time_format start_time = false
  \/ validate_time_format end_time = false ->
  submitActivity activity_name start_time end_time priority w
  = Returned tt (mk_world (activities w)
                          (rendered w ++ [form_title; st_error msg_invalid_times])).
Proof.
  intros Hn Hv. rewrite submitActivity_run.
  apply String.eqb_neq in Hn. rewrite Hn.
  destruct Hv as [-> | ->]; [reflexivity | ].
  now rewrite orb_true_r.
Qed.

(** On well-formed clock texts in ascending order the submission is
    accepted, with the duration [calculate_duration] returns. *)
Lemma submitActivity_accepts (activity_name start_time end_time : string)
      (priority : Priority) (w : world) :
  activity_name <> "" ->
  well_formed_time start_time = true ->
  well_formed_time end_time = true ->
  str_ge start_time end_time = false ->
  exists d : Z,
    calculate_duration start_time end_time = Ok d
    /\ submitActivity activity_name start_time end_time priority w
       = Returned tt
           (mk_world
              (activities w
               ++ [mk_activity activity_name start_time end_time priority d])
              (rendered w ++ [form_title; st_success (msg_added activity_name)])).
Proof.
  intros Hn Hs He Hord.
  destruct (calculate_duration_well_formed _ _ Hs He) as (d & Hd & _).
  exists d. split; [exact Hd | ].
  rewrite submitActivity_run.
  apply String.eqb_neq in Hn. rewrite Hn.
  rewrite !validate_time_format_chars, Hs, He, Hord, Hd. reflexivity.
Qed.

(** An activity is stored only with well-formed clock texts. *)
Lemma submitActivity_session (activity_name start_time end_time : string)
      (priority : Priority) (w : world) :
  let session' :=
    activities (world_of (submitActivity activity_name start_time end_time priority w)) in
  session' = activities w
  \/ exists d : Z,
       session' = (activities w
                   ++ [mk_activity activity_name start_time end_time priority d])%list
       /\ calculate_duration start_time end_time = Ok d
       /\ well_formed_time start_time = true
       /\ well_formed_time end_time = true.
Proof.
  cbv zeta. rewrite submitActivity_run.
  destruct (String.eqb activity_name ""); [now left | ].
  destruct (validate_time_format start_time) eqn:Vs; [ | now left].
  destruct (validate_time_format end_time) eqn:Ve; [ | now left].
  cbn [negb orb].
  destruct (str_ge start_time end_time); [now left | ].
  destruct (calculate_duration start_time end_time) as [d | e] eqn:Hd; [ | now left].
  right. exists d. cbn [world_of activities].
  split; [reflexivity | split; [reflexivity | ] ].
  pose proof Vs as Ws. pose proof Ve as We.
  rewrite validate_time_format_chars in Ws, We.
  destruct (well_formed_time_nl start_time) eqn:Ns.
  { rewrite calculate_duration_trailing_newline in Hd; auto. discriminate. }
  destruct (well_formed_time_nl end_time) eqn:Ne.
  { rewrite calculate_duration_trailing_newline in Hd; auto. discriminate. }
  rewrite orb_false_r in Ws, We. now split.
Qed.

Lemma page_neq (r : list element) (title a b : element) :
  a <> b -> (r ++ [title; a])%list <> (r ++ [title; b])%list.
Proof.
  intros Hab E. apply app_inv_head in E. now injection E.
Qed.

(** C2: the submission is answered with the ordering error exactly when the
    name is not empty, both times pass the validator and [start >= end] as
    strings; 23:00 to 01:00 is rejected this way although its duration
    computes to 120. *)
Theorem submitActivity_ordering_error :
  (forall (activity_name start_time end_time : string) (priority : Priority)
          (w : world),
      submitActivity activity_name start_time end_time priority w
      = Returned tt (mk_world (activities w)
                              (rendered w ++ [form_title; st_error msg_start_before_end]))
      <-> (activity_name <> ""
           /\ validate_time_format start_time = true
           /\ validate_time_format end_time = true
           /\ str_ge start_time end_time = true))
  /\ (forall w : world,
         submitActivity "Run" "23:00" "01:00" Low w
         = Returned tt (mk_world (activities w)
                                 (rendered w ++ [form_title; st_error msg_start_before_end])))
  /\ calculate_duration "23:00" "01:00" = Ok 120%Z.
Proof.
  split; [ | split; [ | reflexivity] ].
  - intros activity_name start_time end_time priority w.
    rewrite submitActivity_run.
    destruct (String.eqb_spec activity_name "") as [Hn | Hn].
    { split; [ | now intros (H & _) ].
      intros E. injection E as E. now apply page_neq in E. }
    destruct (validate_time_format start_time) eqn:Vs; cbn [negb orb].
    2:{ split; [ | now intros (_ & H & _) ].
        intros E. injection E as E. apply page_neq in E; [easy | ].
        intros E'. injection E' as E'. discriminate E'. }
    destruct (validate_time_format end_time) eqn:Ve; cbn [negb orb].
    2:{ split; [ | now intros (_ & _ & H & _) ].
        intros E. injection E as E. apply page_neq in E; [easy | ].
        intros E'. injection E' as E'. discriminate E'. }
    destruct (str_ge start_time end_time) eqn:Hord.
    { split; [now intros _ | reflexivity]. }
    split; [ | now intros (_ & _ & _ & H) ].
    destruct (calculate_duration start_time end_time); [ | discriminate].
    intros E. injection E as _ E. now apply page_neq in E.
  - intros w. now rewrite submitActivity_run.
Qed.

(** C4: a submission that passes the three checks and is neither stored nor
    acknowledged: the start text ends in a line feed, the validator lets it
    through and [calculate_duration] raises before the append. *)
Theorem submitActivity_raises_after_checks (w : world) :
  String.eqb "Run" "" = false
  /\ validate_time_format ("09:00" ++ String LF "") = true
  /\ validate_time_format "10:00" = true
  /\ str_ge ("09:00" ++ String LF "") "10:00" = false
  /\ submitActivity "Run" ("09:00" ++ String LF "") "10:00" High w
     = Raised ValueError (mk_world (activities w) (rendered w ++ [form_title])).
Proof.
  repeat (split; [reflexivity | ]).
  now rewrite submitActivity_run.
Qed.

(** C5: a submission with a missing name, a malformed time or a start text
    not below the end text is answered with one of the three rejection
    messages and leaves the session as it was. *)
Theorem submitActivity_rejection_keeps_session
        (activity_name start_time end_time : string) (priority : Priority)
        (w : world) :
  activity_name = ""
  \/ validate_time_format start_time = false
  \/ validate_time_format end_time = false
  \/ str_ge start_time end_time = true ->
  exists msg : element,
    In msg [st_warning msg_enter_name; st_error msg_invalid_times;
            st_error msg_start_before_end]
    /\ submitActivity activity_name start_time end_time priority w
       = Returned tt (mk_world (activities w) (rendered w ++ [form_title; msg])).
Proof.
  intros H. rewrite submitActivity_run.
  destruct (String.eqb_spec activity_name "") as [Hn | Hn].
  { eexists. split; [ | reflexivity]. now left. }
  destruct (validate_time_format start_time) eqn:Vs; cbn [negb orb].
  2:{ eexists. split; [ | reflexivity]. right. now left. }
  destruct (validate_time_format end_time) eqn:Ve; cbn [negb orb].
  2:{ eexists. split; [ | reflexivity]. right. now left. }
  destruct (str_ge start_time end_time) eqn:Hord.
  { eexists. split; [ | reflexivity]. right. right. now left. }
  destruct H as [H | [H | [H | H] ] ]; congruence.
Qed.

Lemma submitActivity_rejection_keeps_session_witness :
  exists msg : element,
    In msg [st_warning msg_enter_name; st_error msg_invalid_times;
            st_error msg_start_before_end]
    /\ submitActivity "" "09:00" "10:00" High
         (mk_world [mk_activity "Run" "06:00" "07:00" Low 60] [])
       = Returned tt
           (mk_world [mk_activity "Run" "06:00" "07:00" Low 60]
                     ([] ++ [form_title; msg])).
Proof.
  apply (submitActivity_rejection_keeps_session "" "09:00" "10:00" High
           (mk_world [mk_activity "Run" "06:00" "07:00" Low 60] [])).
  left. reflexivity.
Defined.

(** ** Prioritization *)

(** C6: [prioritize_activities] returns with the session replaced by a
    rearrangement of itself in which durations never increase and the
    activities of each duration stand in their former order; durations
    30, 90, 90, 10 come out as 90, 90, 30, 10 with the first 90 still
    ahead of the second. *)
Theorem prioritize_activities_stable_sort :
  (forall w : world,
      let session' := activities (world_of (prioritize_activities w)) in
      (exists page, prioritize_activities w = Returned tt (mk_world session' page))
      /\ Permutation (activities w) session'
      /\ StronglySorted (fun a b => (duration a >= duration b)%Z) session'
      /\ (forall d : Z,
             filter (fun a => (duration a =? d)%Z) session'
             = filter (fun a => (duration a =? d)%Z) (activities w)))
  /\ map (fun a => (name a, duration a))
         (activities
            (world_of
               (prioritize_activities
                  (mk_world
                     [mk_activity "a" "09:00" "09:30" High 30;
                      mk_activity "b" "10:00" "11:30" Low 90;
                      mk_activity "c" "12:00" "13:30" Medium 90;
                      mk_activity "d" "14:00" "14:10" High 10] []))))
     = [("b", 90); ("c", 90); ("a", 30); ("d", 10)]%Z.
Proof.
  split; [ | reflexivity].
  intros w. cbv zeta. rewrite prioritize_activities_run.
  cbn [world_of activities].
  split; [eexists; reflexivity | ].
  split; [apply sort_reverse_perm | ].
  split; [apply (sort_reverse_sorted duration) | ].
  intros d. apply (sort_reverse_stable duration).
Qed.

(** ** Summary *)

Lemma is_tier_summary_tier (n : nat) : is_tier (summary_tier n) = true.
Proof.
  destruct n as [ | [ | [ | [ | [ | [ | [ | n ] ] ] ] ] ] ]; reflexivity.
Qed.

Lemma is_break_line_summary_tier (n : nat) :
  is_break_line (summary_tier n) = false.
Proof.
  destruct n as [ | [ | [ | [ | [ | [ | [ | n ] ] ] ] ] ] ]; reflexivity.
Qed.

(** C9: [summary_and_reassurance] returns, leaves the session as it was and
    writes lines that depend on the number of activities only; among them
    is exactly one tier message, the one of the count's range (0, 1-3, 4-6,
    above 6), and the two break lines are there exactly for a count above
    0. *)
Theorem summary_and_reassurance_tiers :
  (forall w : world,
      summary_and_reassurance w
      = Returned tt
          (mk_world (activities w)
                    (rendered w ++ summary_lines (List.length (activities w)))))
  /\ (forall n : nat, filter is_tier (summary_lines n) = [summary_tier n])
  /\ (forall n : nat,
         filter is_break_line (summary_lines n)
         = if Nat.ltb 0 n then break_lines else [])
  /\ summary_tier 0 = st_info msg_relax
  /\ summary_tier 2 = st_success msg_great_start
  /\ summary_tier 5 = st_success msg_productive_day
  /\ summary_tier 8 = st_warning msg_packed_schedule.
Proof.
  split; [exact summary_and_reassurance_run | ].
  split; [ | split; [ | repeat split] ].
  - intros n. unfold summary_lines. cbn [app filter is_tier].
    rewrite is_tier_summary_tier. now destruct n.
  - intros n. unfold summary_lines. cbn [app filter].
    rewrite is_break_line_summary_tier.
    assert (Htotal : is_break_line
              (st_write ("**Total Activities Planned**: " ++ str_nat n)) = false)
      by reflexivity.
    rewrite Htotal. now destruct n.
Qed.

(** ** Runs of the script *)

Lemma main_run (w : widgets) (w0 : world) :
  main w w0
  = let w1 := mk_world (activities w0) (rendered w0 ++ banner) in
    match w_page w with
    | Add_a_New_Activity => add_activity w w1
    | View_Activities => display_activities w1
    | Prioritize_and_Summarize =>
        match activities w0 with
        | _ :: _ => (prioritize_activities ;; summary_and_reassurance) w1
        | [] => emit (st_info msg_nothing_to_prioritize) w1
        end
    end.
Proof.
  unfold main, banner. unfold bind at 1 2 3. unfold emit at 1 2 3.
  cbn [activities rendered]. rewrite <- !app_assoc. cbn [app].
  destruct (w_page w); try reflexivity.
  unfold bind at 1, get_activities. cbn [activities].
  now destruct (activities w0).
Qed.

Lemma prioritize_then_summarize_run (w : world) :
  (prioritize_activities ;; summary_and_reassurance) w
  = let session' := PyList.sort duration true (activities w) in
    Returned tt
      (mk_world session'
                (rendered w
                 ++ (st_write "### Suggested Activity Prioritization"
                     :: listing 0 session')
                 ++ summary_lines (List.length session'))).
Proof.
  unfold bind. rewrite prioritize_activities_run, summary_and_reassurance_run.
  same_page.
Qed.

Lemma sort_reverse_length (l : list Activity) :
  List.length (PyList.sort duration true l) = List.length l.
Proof. symmetry. apply Permutation_length, sort_reverse_perm. Qed.

(** The session after one run: unchanged, extended by one activity with
    well-formed times, or sorted. *)
Lemma script_run_well_formed (w : widgets) (session : list Activity) :
  Forall (fun a => well_formed_activity a = true) session ->
  Forall (fun a => well_formed_activity a = true)
         (activities (world_of (script_run w session))).
Proof.
  intros Hall. unfold script_run. rewrite main_run. cbv zeta.
  cbn [activities rendered].
  destruct (w_page w).
  - rewrite add_activity_run. destruct (w_submitted w); [ | exact Hall].
    match goal with
    | |- context [submitActivity ?n ?s ?e ?p ?w1] =>
        destruct (submitActivity_session n s e p w1) as [E | (d & E & _ & Hs & He)]
    end; rewrite E; cbn [activities]; [exact Hall | ].
    apply Forall_app. split; [exact Hall | ].
    constructor; [ | constructor].
    unfold well_formed_activity. cbn [start_time end_time]. now rewrite Hs, He.
  - now rewrite display_activities_run.
  - destruct session as [ | a l]; [exact Hall | ].
    rewrite prioritize_then_summarize_run. cbv zeta. cbn [world_of activities].
    apply (Permutation_Forall (sort_reverse_perm duration (a :: l))), Hall.
Qed.

(** C3 (as stated): after one accepted submission the session holds a start
    time that the two-digit pattern of the data model does not match. *)
Lemma stored_time_single_digit_hour :
  ~ Forall (fun a => matches_spec_pattern (start_time a) = true
                     /\ matches_spec_pattern (end_time a) = true)
           (session_after
              [mk_widgets Add_a_New_Activity "Run" "9:00" "9:30" High true]
              initial_session).
Proof.
  intros H. vm_compute in H. inversion H as [ | a l [Hs _] _ ]. discriminate Hs.
Qed.

(** C3 (amended): after any interactions, every stored activity has a start
    and an end time that are well-formed clock texts: an hour 0-23 of one or
    two digits, a colon and a minute 00-59 of two digits, nothing else. *)
Theorem stored_times_well_formed (ws : list widgets) :
  Forall (fun a => well_formed_activity a = true)
         (session_after ws initial_session).
Proof.
  assert (Hgen : forall session,
             Forall (fun a => well_formed_activity a = true) session ->
             Forall (fun a => well_formed_activity a = true)
                    (session_after ws session)).
  { induction ws as [ | w ws IH]; intros session Hall; [exact Hall | ].
    cbn [session_after]. apply IH. now apply script_run_well_formed. }
  apply Hgen. constructor.
Qed.

(** ** The summary's message for an empty day *)

Lemma listing_no_relax (l : list Activity) :
  forall i : nat, existsb is_relax (listing i l) = false.
Proof.
  induction l as [ | a l IH]; intros i; [reflexivity | ].
  cbn [listing activity_lines app existsb is_relax orb]. apply IH.
Qed.

Lemma summary_lines_no_relax (n : nat) :
  existsb is_relax (summary_lines (S n)) = false.
Proof.
  destruct n as [ | [ | [ | [ | [ | [ | n ] ] ] ] ] ]; reflexivity.
Qed.

Lemma script_run_no_relax (w : widgets) (session : list Activity) :
  existsb is_relax (rendered (world_of (script_run w session))) = false.
Proof.
  unfold script_run. rewrite main_run. cbv zeta. cbn [activities rendered app].
  destruct (w_page w).
  - rewrite add_activity_run. destruct (w_submitted w); [ | reflexivity].
    rewrite submitActivity_run. cbn [activities rendered].
    repeat match goal with
      | |- context [if ?b then _ else _] => destruct b; try reflexivity
      end.
    destruct (calculate_duration _ _); reflexivity.
  - rewrite display_activities_run. cbn [world_of rendered activities].
    rewrite existsb_app. cbn [banner existsb is_relax orb display_lines].
    destruct session; [reflexivity | apply listing_no_relax].
  - destruct session as [ | a l]; [reflexivity | ].
    rewrite prioritize_then_summarize_run. cbv zeta.
    cbn [world_of rendered activities].
    rewrite !existsb_app. cbn [banner existsb is_relax orb].
    rewrite listing_no_relax, sort_reverse_length.
    apply summary_lines_no_relax.
Qed.

(** C10: on the page "Prioritize & Summarize" with an empty session the
    script writes the banner and the placeholder only and leaves the session
    empty; and no page of any run, from any session, shows the summary's
    message for a count of 0. *)
Theorem relax_message_unreachable :
  (forall (activity_name start_time end_time : string) (priority : Priority)
          (submitted : bool),
      script_run (mk_widgets Prioritize_and_Summarize activity_name start_time
                             end_time priority submitted) []
      = Returned tt (mk_world [] (banner ++ [st_info msg_nothing_to_prioritize])))
  /\ (forall (ws : list widgets) (session : list Activity),
         Forall (fun page => ~ In (st_info msg_relax) page)
                (pages_shown ws session)).
Proof.
  split; [reflexivity | ].
  induction ws as [ | w ws IH]; intros session; cbn [pages_shown].
  - constructor.
  - constructor; [ | apply IH].
    intros Hin.
    pose proof (script_run_no_relax w session) as Hno.
    assert (Hyes : existsb is_relax (rendered (world_of (script_run w session))) = true).
    { apply existsb_exists. exists (st_info msg_relax). split; [exact Hin | reflexivity]. }
    congruence.
Qed.

(** ** Clock texts as numbers *)

Local Open Scope Z_scope.

Lemma strptime_two_digit_hour (a b c m1 m2 : ascii) :
  hour_digits a b = true ->
  Ascii.eqb c ":" = true ->
  minute_digits m1 m2 = true ->
  Datetime.strptime_H_M (String a (String b (String c (String m1 (String m2 "")))))
  = Ok (Datetime.mk_datetime Datetime.ordinal_1900_01_01
          ((10 * digit a + digit b) * 3600 + (10 * digit m1 + digit m2) * 60)).
Proof.
  intros Hh Hc Hm.
  unfold Datetime.strptime_H_M, rmatch, digit; run_codes;
    do 2 f_equal; lia.
Qed.

Lemma strptime_one_digit_hour (h c m1 m2 : ascii) :
  is_digit h = true ->
  Ascii.eqb c ":" = true ->
  minute_digits m1 m2 = true ->
  Datetime.strptime_H_M (String h (String c (String m1 (String m2 ""))))
  = Ok (Datetime.mk_datetime Datetime.ordinal_1900_01_01
          (digit h * 3600 + (10 * digit m1 + digit m2) * 60)).
Proof.
  intros Hh Hc Hm.
  unfold Datetime.strptime_H_M, rmatch, digit; run_codes;
    do 2 f_equal; lia.
Qed.

Lemma minute_of_day_parsed (s : string) (h m : Z) :
  Datetime.strptime_H_M s
  = Ok (Datetime.mk_datetime Datetime.ordinal_1900_01_01 (h * 3600 + m * 60)) ->
  minute_of_day s = h * 60 + m.
Proof.
  intros E. unfold minute_of_day. rewrite E. cbn [Datetime.second_of_day].
  replace (h * 3600 + m * 60)%Z with ((h * 60 + m) * 60)%Z by lia.
  apply Z.div_mul. lia.
Qed.

Lemma minute_of_day_range (s : string) :
  well_formed_time s = true -> (0 <= minute_of_day s <= 1439)%Z.
Proof.
  intros H. destruct (strptime_well_formed s H) as (h & m & E & Hh & Hm).
  rewrite (minute_of_day_parsed s h m E). lia.
Qed.

Lemma strptime_minute_of_day (s : string) :
  well_formed_time s = true ->
  Datetime.strptime_H_M s
  = Ok (Datetime.mk_datetime Datetime.ordinal_1900_01_01 (minute_of_day s * 60)).
Proof.
  intros H. destruct (strptime_well_formed s H) as (h & m & E & Hh & Hm).
  rewrite (minute_of_day_parsed s h m E), E. do 2 f_equal. lia.
Qed.

Lemma calculate_duration_minutes (s e : string) :
  well_formed_time s = true ->
  well_formed_time e = true ->
  calculate_duration s e = Ok ((minute_of_day e - minute_of_day s) mod 1440)%Z.
Proof.
  intros Hs He.
  rewrite (calculate_duration_parsed s e _ _
             (strptime_minute_of_day s Hs) (strptime_minute_of_day e He)).
  f_equal.
  match goal with
  | |- context [if ?b then _ else _] => destruct b
  end; rewrite ?seconds_sub_add_day;
    unfold Datetime.sub, Datetime.timedelta_of, Datetime.total_seconds;
    cbn [Datetime.seconds Datetime.ordinal Datetime.second_of_day];
    set (x := minute_of_day s); set (y := minute_of_day e);
    (replace (Datetime.ordinal_1900_01_01 * 86400 + y * 60
              - (Datetime.ordinal_1900_01_01 * 86400 + x * 60))%Z
      with (60 * (y - x))%Z by lia);
    change 86400%Z with (60 * 1440)%Z;
    rewrite Z.mul_mod_distr_l by lia;
    rewrite Z.mul_comm; apply Z.div_mul; lia.
Qed.

(** X2: for two well-formed clock texts [calculate_duration] returns the
    difference of their minutes of the day modulo 1440, a number from 0 to
    1439. *)
Theorem calculate_duration_difference_mod_day (s e : string) :
  well_formed_time s = true ->
  well_formed_time e = true ->
  calculate_duration s e = Ok ((minute_of_day e - minute_of_day s) mod 1440)%Z
  /\ (0 <= (minute_of_day e - minute_of_day s) mod 1440 <= 1439)%Z.
Proof.
  intros Hs He. split; [now apply calculate_duration_minutes | ].
  pose proof (Z.mod_pos_bound (minute_of_day e - minute_of_day s) 1440) as B.
  lia.
Qed.

Lemma calculate_duration_difference_mod_day_witness :
  calculate_duration "22:15" "6:45"
  = Ok ((minute_of_day "6:45" - minute_of_day "22:15") mod 1440)%Z
  /\ (0 <= (minute_of_day "6:45" - minute_of_day "22:15") mod 1440 <= 1439)%Z.
Proof.
  apply (calculate_duration_difference_mod_day "22:15" "6:45"); reflexivity.
Defined.

(** X3: for two well-formed clock texts, the duration from the first to the
    second and the duration back add up to a whole day, 1440 minutes, unless
    both stand for the same minute, in which case both durations are 0. *)
Theorem calculate_duration_there_and_back (s e : string) :
  well_formed_time s = true ->
  well_formed_time e = true ->
  exists d d' : Z,
    calculate_duration s e = Ok d
    /\ calculate_duration e s = Ok d'
    /\ (d + d' = if minute_of_day s =? minute_of_day e then 0 else 1440)%Z.
Proof.
  intros Hs He.
  exists ((minute_of_day e - minute_of_day s) mod 1440)%Z,
         ((minute_of_day s - minute_of_day e) mod 1440)%Z.
  split; [now apply calculate_duration_minutes | ].
  split; [now apply calculate_duration_minutes | ].
  pose proof (minute_of_day_range s Hs) as Rs.
  pose proof (minute_of_day_range e He) as Re.
  destruct (Z.eqb_spec (minute_of_day s) (minute_of_day e)) as [E | N].
  - rewrite E, Z.sub_diag. reflexivity.
  - destruct (Z.lt_ge_cases (minute_of_day s) (minute_of_day e)) as [Hlt | Hge].
    + rewrite (Z.mod_small (minute_of_day e - minute_of_day s)) by lia.
      replace (minute_of_day s - minute_of_day e)%Z
        with (1440 - (minute_of_day e - minute_of_day s) + (-1) * 1440)%Z by lia.
      rewrite Z.mod_add by lia. rewrite Z.mod_small by lia. lia.
    + rewrite (Z.mod_small (minute_of_day s - minute_of_day e)) by lia.
      replace (minute_of_day e - minute_of_day s)%Z
        with (1440 - (minute_of_day s - minute_of_day e) + (-1) * 1440)%Z by lia.
      rewrite Z.mod_add by lia. rewrite Z.mod_small by lia. lia.
Qed.

Lemma calculate_duration_there_and_back_witness :
  exists d d' : Z,
    calculate_duration "23:00" "01:00" = Ok d
    /\ calculate_duration "01:00" "23:00" = Ok d'
    /\ (d + d' = if minute_of_day "23:00" =? minute_of_day "01:00" then 0 else 1440)%Z.
Proof.
  apply (calculate_duration_there_and_back "23:00" "01:00"); reflexivity.
Defined.

(** ** The order of texts and the order of times *)

Lemma minute_of_day_two_digit_hour (a b c m1 m2 : ascii) :
  hour_digits a b = true ->
  Ascii.eqb c ":" = true ->
  minute_digits m1 m2 = true ->
  minute_of_day (String a (String b (String c (String m1 (String m2 "")))))
  = (10 * digit a + digit b) * 60 + (10 * digit m1 + digit m2).
Proof.
  intros Hh Hc Hm. apply minute_of_day_parsed.
  now apply strptime_two_digit_hour.
Qed.

Lemma minute_of_day_one_digit_hour (h c m1 m2 : ascii) :
  is_digit h = true ->
  Ascii.eqb c ":" = true ->
  minute_digits m1 m2 = true ->
  minute_of_day (String h (String c (String m1 (String m2 ""))))
  = digit h * 60 + (10 * digit m1 + digit m2).
Proof.
  intros Hh Hc Hm. apply minute_of_day_parsed.
  now apply strptime_one_digit_hour.
Qed.

(** Split a well-formed text into its characters and their tests. *)
Ltac clock_chars H :=
  match type of H with
  | well_formed_time ?s = true =>
      let c1 := fresh "c" in let c2 := fresh "c" in let c3 := fresh "c" in
      let c4 := fresh "c" in let c5 := fresh "c" in let c6 := fresh "c" in
      let r := fresh "s" in
      let Hh := fresh "Hh" in let Hc := fresh "Hc" in let Hm := fresh "Hm" in
      destruct s as [ | c1 [ | c2 [ | c3 [ | c4 [ | c5 [ | c6 r ] ] ] ] ] ];
      cbn [well_formed_time] in H;
      try discriminate H;
      apply andb_prop in H; destruct H as [H Hm];
      apply andb_prop in H; destruct H as [Hh Hc]
  end.

Ltac compare_codes :=
  unfold str_ge, String.ltb; cbn [String.compare]; unfold Ascii.compare;
  repeat match goal with
    | |- context [(?a ?= ?b)%N] =>
        destruct (N.compare_spec a b); try lia; cbn [negb]
    | |- context [(?a <=? ?b)%Z] =>
        destruct (Z.leb_spec a b); try lia
    end.

Lemma same_width_order (s e : string) :
  well_formed_time s = true ->
  well_formed_time e = true ->
  String.length s = String.length e ->
  str_ge s e = (minute_of_day e <=? minute_of_day s).
Proof.
  intros Hs He Hlen.
  clock_chars Hs; clock_chars He; try discriminate Hlen.
  - rewrite !minute_of_day_one_digit_hour by assumption.
    unfold digit. char_codes. split_codes. compare_codes; reflexivity.
  - rewrite !minute_of_day_two_digit_hour by assumption.
    unfold digit. char_codes. split_codes; compare_codes; reflexivity.
Qed.

Lemma div_cancel (q r d : Z) : 0 <= r < d -> (q * d + r) / d = q.
Proof.
  intros H. rewrite Z.div_add_l by lia. rewrite Z.div_small by lia. lia.
Qed.

Lemma div_cancel_10 (q r : Z) : 0 <= r < 10 -> (10 * q + r) / 10 = q.
Proof. intros H. rewrite (Z.mul_comm 10 q). now apply div_cancel. Qed.

Lemma hour_of_day_one_digit_hour (h c m1 m2 : ascii) :
  is_digit h = true ->
  Ascii.eqb c ":" = true ->
  minute_digits m1 m2 = true ->
  hour_of_day (String h (String c (String m1 (String m2 "")))) = digit h.
Proof.
  intros Hh Hc Hm. unfold hour_of_day.
  rewrite minute_of_day_one_digit_hour by assumption.
  unfold digit. char_codes. split_codes.
  apply div_cancel. lia.
Qed.

Lemma hour_of_day_two_digit_hour (a b c m1 m2 : ascii) :
  hour_digits a b = true ->
  Ascii.eqb c ":" = true ->
  minute_digits m1 m2 = true ->
  hour_of_day (String a (String b (String c (String m1 (String m2 "")))))
  = 10 * digit a + digit b.
Proof.
  intros Hh Hc Hm. unfold hour_of_day.
  rewrite minute_of_day_two_digit_hour by assumption.
  unfold digit. char_codes. split_codes; apply div_cancel; lia.
Qed.

(** X5: a start with a one-digit hour is compared with an end with a
    two-digit hour by the first characters alone: [start >= end] holds
    exactly when the tens digit of the end's hour is at most the start's
    hour, so 9:00 to 10:00 counts as out of order. *)
Theorem one_digit_start_two_digit_end (s e : string) :
  well_formed_time s = true ->
  well_formed_time e = true ->
  String.length s = 4%nat ->
  String.length e = 5%nat ->
  str_ge s e = (hour_of_day e / 10 <=? hour_of_day s).
Proof.
  intros Hs He Ls Le.
  clock_chars Hs; clock_chars He; try discriminate Ls; try discriminate Le.
  rewrite hour_of_day_one_digit_hour, hour_of_day_two_digit_hour by assumption.
  unfold digit. char_codes.
  split_codes; rewrite div_cancel_10 by lia; compare_codes; reflexivity.
Qed.

Lemma one_digit_start_two_digit_end_witness :
  str_ge "9:00" "10:00" = (hour_of_day "10:00" / 10 <=? hour_of_day "9:00").
Proof.
  apply (one_digit_start_two_digit_end "9:00" "10:00"); reflexivity.
Defined.

(** X6: a start with a two-digit hour is compared with an end with a
    one-digit hour by the first characters alone: [start >= end] holds
    exactly when the tens digit of the start's hour is above the end's
    hour, so 10:00 to 9:00 counts as in order. *)
Theorem two_digit_start_one_digit_end (s e : string) :
  well_formed_time s = true ->
  well_formed_time e = true ->
  String.length s = 5%nat ->
  String.length e = 4%nat ->
  str_ge s e = negb (hour_of_day s / 10 <=? hour_of_day e).
Proof.
  intros Hs He Ls Le.
  clock_chars Hs; clock_chars He; try discriminate Ls; try discriminate Le.
  rewrite hour_of_day_one_digit_hour, hour_of_day_two_digit_hour by assumption.
  unfold digit. char_codes.
  split_codes; rewrite div_cancel_10 by lia; compare_codes; reflexivity.
Qed.

Lemma two_digit_start_one_digit_end_witness :
  str_ge "10:00" "9:00" = negb (hour_of_day "10:00" / 10 <=? hour_of_day "9:00").
Proof.
  apply (two_digit_start_one_digit_end "10:00" "9:00"); reflexivity.
Defined.

(** X4: with a name and two well-formed times of the same width, the
    submission is accepted exactly when the start is the earlier time of the
    day, and the stored duration is then the difference in minutes;
    otherwise it is answered with the ordering error. *)
Theorem submitActivity_same_width (activity_name s e : string)
        (priority : Priority) (w : world) :
  activity_name <> "" ->
  well_formed_time s = true ->
  well_formed_time e = true ->
  String.length s = String.length e ->
  submitActivity activity_name s e priority w
  = if minute_of_day s <? minute_of_day e then
      Returned tt
        (mk_world
           (activities w
            ++ [mk_activity activity_name s e priority
                            (minute_of_day e - minute_of_day s)])
           (rendered w ++ [form_title; st_success (msg_added activity_name)]))
    else
      Returned tt
        (mk_world (activities w)
                  (rendered w ++ [form_title; st_error msg_start_before_end])).
Proof.
  intros Hn Hs He Hlen.
  rewrite submitActivity_run.
  apply String.eqb_neq in Hn. rewrite Hn.
  rewrite !validate_time_format_chars, Hs, He. cbn [negb orb].
  rewrite (same_width_order s e Hs He Hlen).
  pose proof (minute_of_day_range s Hs) as Rs.
  pose proof (minute_of_day_range e He) as Re.
  destruct (Z.leb_spec (minute_of_day e) (minute_of_day s)) as [Hle | Hlt];
    destruct (Z.ltb_spec (minute_of_day s) (minute_of_day e)) as [Hlt' | Hle'];
    try lia; [reflexivity | ].
  rewrite (calculate_duration_minutes s e Hs He).
  now rewrite Z.mod_small by lia.
Qed.

Lemma submitActivity_same_width_witness :
  submitActivity "Run" "09:00" "10:30" High (mk_world [] [])
  = if minute_of_day "09:00" <? minute_of_day "10:30" then
      Returned tt
        (mk_world
           ([] ++ [mk_activity "Run" "09:00" "10:30" High
                               (minute_of_day "10:30" - minute_of_day "09:00")])
           ([] ++ [form_title; st_success (msg_added "Run")]))
    else
      Returned tt
        (mk_world [] ([] ++ [form_title; st_error msg_start_before_end])).
Proof.
  apply (submitActivity_same_width "Run" "09:00" "10:30" High (mk_world [] []));
    [discriminate | reflexivity | reflexivity | reflexivity].
Defined.

(** ** More on sorting *)

Section SortFixpoint.

Context {A : Type} (key : A -> Z).

Lemma sort_ascending_id (l : list A) :
  StronglySorted (fun a b => key a <= key b) l ->
  PyList.sort_ascending key l = l.
Proof.
  induction 1 as [ | x l Hl IH Hx]; [reflexivity | ].
  cbn [PyList.sort_ascending fold_right].
  fold (PyList.sort_ascending key l). rewrite IH.
  destruct l as [ | y l']; [reflexivity | ].
  cbn [PyList.insert].
  inversion Hx as [ | ? ? Hxy _]; subst.
  destruct (Z.leb_spec (key x) (key y)); [reflexivity | lia].
Qed.

Lemma sorted_ge_rev (l : list A) :
  StronglySorted (fun a b => key a >= key b) l ->
  StronglySorted (fun a b => key a <= key b) (rev l).
Proof.
  induction 1 as [ | x l Hl IH Hx]; simpl.
  - constructor.
  - assert (Happ : forall l1, StronglySorted (fun a b => key a <= key b) l1 ->
                Forall (fun y => key y <= key x) l1 ->
                StronglySorted (fun a b => key a <= key b) (l1 ++ [x])).
    { induction 1 as [ | z l1 Hl1 IH1 Hz]; intros Hall; simpl.
      - constructor; constructor.
      - inversion Hall as [ | ? ? Hzx Hall']; subst.
        constructor; [now apply IH1 | ].
        apply Forall_app. split; [exact Hz | now constructor]. }
    apply Happ; [exact IH | ].
    apply Forall_rev. eapply Forall_impl; [ | exact Hx].
    intros y Hy. cbv beta in Hy. lia.
Qed.

Lemma sort_reverse_id (l : list A) :
  StronglySorted (fun a b => key a >= key b) l ->
  PyList.sort key true l = l.
Proof.
  intros H. unfold PyList.sort.
  rewrite sort_ascending_id by now apply sorted_ge_rev.
  apply rev_involutive.
Qed.

Lemma sort_reverse_idempotent (l : list A) :
  PyList.sort key true (PyList.sort key true l) = PyList.sort key true l.
Proof. apply sort_reverse_id, sort_reverse_sorted. Qed.

End SortFixpoint.

(** X7: a session whose durations already never increase is left exactly as
    it is by [prioritize_activities], ties included. *)
Theorem prioritize_activities_keeps_sorted (w : world) :
  StronglySorted (fun a b => duration a >= duration b) (activities w) ->
  activities (world_of (prioritize_activities w)) = activities w.
Proof.
  intros H. rewrite prioritize_activities_run. cbn [world_of activities].
  now apply sort_reverse_id.
Qed.

Lemma prioritize_activities_keeps_sorted_witness :
  activities
    (world_of
       (prioritize_activities
          (mk_world [mk_activity "b" "10:00" "11:30" Low 90;
                     mk_activity "c" "12:00" "13:30" Medium 90;
                     mk_activity "a" "09:00" "09:30" High 30] [])))
  = [mk_activity "b" "10:00" "11:30" Low 90;
     mk_activity "c" "12:00" "13:30" Medium 90;
     mk_activity "a" "09:00" "09:30" High 30].
Proof.
  apply (prioritize_activities_keeps_sorted
           (mk_world [mk_activity "b" "10:00" "11:30" Low 90;
                      mk_activity "c" "12:00" "13:30" Medium 90;
                      mk_activity "a" "09:00" "09:30" High 30] [])).
  cbn [activities].
  repeat (constructor; [ | repeat (constructor; [cbn [duration]; lia | ]); constructor ]).
  constructor.
Defined.

(** ** What one run does to the session *)

Lemma script_run_view (w : widgets) (session : list Activity) :
  w_page w = View_Activities ->
  script_run w session
  = Returned tt (mk_world session (banner ++ display_lines session)).
Proof.
  intros Hp. unfold script_run. rewrite main_run, Hp. cbv zeta.
  cbn [activities rendered app]. now rewrite display_activities_run.
Qed.

Lemma script_run_prioritize_session (w : widgets) (session : list Activity) :
  w_page w = Prioritize_and_Summarize ->
  activities (world_of (script_run w session))
  = PyList.sort duration true session.
Proof.
  intros Hp. unfold script_run. rewrite main_run, Hp. cbv zeta.
  cbn [activities rendered app].
  destruct session as [ | a l]; [reflexivity | ].
  now rewrite prioritize_then_summarize_run.
Qed.

(** X8: interactions that never open the form leave the session as it was
    when none of them opened "Prioritize & Summarize", and sorted once by
    duration otherwise, however often and in whatever order the two other
    pages were visited. *)
Theorem session_after_navigation (ws : list widgets) (session : list Activity) :
  forallb (fun w => negb (page_eqb (w_page w) Add_a_New_Activity)) ws = true ->
  session_after ws session
  = if existsb (fun w => page_eqb (w_page w) Prioritize_and_Summarize) ws
    then PyList.sort duration true session
    else session.
Proof.
  revert session. induction ws as [ | w ws IH]; intros session H; [reflexivity | ].
  cbn [forallb] in H. apply andb_prop in H. destruct H as [Hw Hws].
  cbn [session_after existsb]. rewrite (IH _ Hws).
  destruct (w_page w) eqn:Hp; try discriminate Hw; cbn [page_eqb orb].
  - rewrite (script_run_view w session Hp). cbn [world_of activities]. reflexivity.
  - rewrite (script_run_prioritize_session w session Hp).
    rewrite sort_reverse_idempotent.
    now destruct (existsb _ ws).
Qed.

Lemma session_after_navigation_witness :
  session_after
    [mk_widgets Prioritize_and_Summarize "" "" "" High false;
     mk_widgets View_Activities "" "" "" High false;
     mk_widgets Prioritize_and_Summarize "" "" "" High false]
    [mk_activity "a" "09:00" "09:30" High 30;
     mk_activity "b" "10:00" "11:30" Low 90]
  = if existsb (fun w => page_eqb (w_page w) Prioritize_and_Summarize)
         [mk_widgets Prioritize_and_Summarize "" "" "" High false;
          mk_widgets View_Activities "" "" "" High false;
          mk_widgets Prioritize_and_Summarize "" "" "" High false]
    then PyList.sort duration true
           [mk_activity "a" "09:00" "09:30" High 30;
            mk_activity "b" "10:00" "11:30" Low 90]
    else [mk_activity "a" "09:00" "09:30" High 30;
          mk_activity "b" "10:00" "11:30" Low 90].
Proof.
  apply (session_after_navigation
           [mk_widgets Prioritize_and_Summarize "" "" "" High false;
            mk_widgets View_Activities "" "" "" High false;
            mk_widgets Prioritize_and_Summarize "" "" "" High false]).
  reflexivity.
Defined.

(** ** What a submission stores and when a run stops *)

Lemma calculate_duration_validated (s e : string) :
  validate_time_format s = true ->
  validate_time_format e = true ->
  calculate_duration s e
  = if well_formed_time_nl s || well_formed_time_nl e
    then Raise ValueError
    else Ok ((minute_of_day e - minute_of_day s) mod 1440).
Proof.
  intros Vs Ve.
  destruct (well_formed_time_nl s) eqn:Ns; cbn [orb].
  { apply calculate_duration_trailing_newline; auto. }
  destruct (well_formed_time_nl e) eqn:Ne.
  { apply calculate_duration_trailing_newline; auto. }
  rewrite validate_time_format_chars in Vs, Ve.
  rewrite Ns, orb_false_r in Vs. rewrite Ne, orb_false_r in Ve.
  now apply calculate_duration_minutes.
Qed.

(** X9: a run of the script stops at an exception exactly on a pressed
    submit button with a name and two accepted times in ascending text order
    of which one ends in a line feed; the exception is [ValueError] and the
    session is the one the run started with.  The pages "View Activities"
    and "Prioritize & Summarize" never raise. *)
Theorem script_run_raises (w : widgets) (session : list Activity) :
  match script_run w session with
  | Raised e w' =>
      e = ValueError /\ activities w' = session /\ raises_on w = true
  | Returned _ _ => raises_on w = false
  end.
Proof.
  unfold script_run. rewrite main_run. cbv zeta. cbn [activities rendered app].
  unfold raises_on, submit_pressed.
  destruct (w_page w); cbn [page_eqb andb].
  - rewrite add_activity_run. destruct (w_submitted w); [ | reflexivity].
    rewrite submitActivity_run. cbn [activities rendered andb].
    destruct (String.eqb (w_activity_name w) ""); [reflexivity | ].
    destruct (validate_time_format (w_start_time w)) eqn:Vs; [ | reflexivity].
    destruct (validate_time_format (w_end_time w)) eqn:Ve; [ | reflexivity].
    cbn [negb orb andb].
    destruct (str_ge (w_start_time w) (w_end_time w)); [reflexivity | ].
    rewrite (calculate_duration_validated _ _ Vs Ve). cbn [negb andb].
    destruct (well_formed_time_nl (w_start_time w) || well_formed_time_nl (w_end_time w));
      [now repeat split | reflexivity].
  - now rewrite display_activities_run.
  - destruct session as [ | a l]; [reflexivity | ].
    now rewrite prioritize_then_summarize_run.
Qed.

(** X10: with a name and two well-formed times in ascending text order the
    submission appends one activity to the end of the session, holding the
    name, the two texts and the priority as entered and the difference of
    the minutes of the day modulo 1440 as duration, and acknowledges it by
    name; the activities already there keep their places. *)
Theorem submitActivity_appends (activity_name s e : string)
        (priority : Priority) (w : world) :
  activity_name <> "" ->
  well_formed_time s = true ->
  well_formed_time e = true ->
  str_ge s e = false ->
  submitActivity activity_name s e priority w
  = Returned tt
      (mk_world
         (activities w
          ++ [mk_activity activity_name s e priority
                          ((minute_of_day e - minute_of_day s) mod 1440)])
         (rendered w ++ [form_title; st_success (msg_added activity_name)])).
Proof.
  intros Hn Hs He Hord.
  rewrite submitActivity_run.
  apply String.eqb_neq in Hn. rewrite Hn.
  rewrite !validate_time_format_chars, Hs, He, Hord. cbn [negb orb].
  now rewrite (calculate_duration_minutes s e Hs He).
Qed.

Lemma submitActivity_appends_witness :
  submitActivity "Night shift" "22:00" "6:00" Low
    (mk_world [mk_activity "Run" "06:00" "07:00" High 60] [])
  = Returned tt
      (mk_world
         ([mk_activity "Run" "06:00" "07:00" High 60]
          ++ [mk_activity "Night shift" "22:00" "6:00" Low
                          ((minute_of_day "6:00" - minute_of_day "22:00") mod 1440)])
         ([] ++ [form_title; st_success (msg_added "Night shift")])).
Proof.
  apply (submitActivity_appends "Night shift" "22:00" "6:00" Low
           (mk_world [mk_activity "Run" "06:00" "07:00" High 60] []));
    [discriminate | reflexivity | reflexivity | reflexivity].
Defined.

Lemma submitActivity_stored (activity_name s e : string)
      (priority : Priority) (w : world) :
  let session' :=
    activities (world_of (submitActivity activity_name s e priority w)) in
  session' = activities w
  \/ exists a : Activity,
       session' = (activities w ++ [a])%list /\ consistent_activity a = true.
Proof.
  cbv zeta. rewrite submitActivity_run.
  destruct (String.eqb activity_name "") eqn:Hn; [now left | ].
  destruct (validate_time_format s) eqn:Vs; [ | now left].
  destruct (validate_time_format e) eqn:Ve; [ | now left].
  cbn [negb orb].
  destruct (str_ge s e) eqn:Hord; [now left | ].
  rewrite (calculate_duration_validated s e Vs Ve).
  destruct (well_formed_time_nl s || well_formed_time_nl e) eqn:Hnl; [now left | ].
  right. eexists. cbn [world_of activities]. split; [reflexivity | ].
  unfold consistent_activity. cbn [name start_time end_time duration].
  rewrite Hn, (calculate_duration_validated s e Vs Ve), Hnl, Z.eqb_refl.
  unfold str_ge in Hord. apply negb_false_iff in Hord. rewrite Hord.
  pose proof (Z.mod_pos_bound (minute_of_day e - minute_of_day s) 1440) as B.
  cbn [negb andb].
  apply andb_true_intro. split; [apply Z.leb_le | apply Z.leb_le]; lia.
Qed.

Lemma script_run_session (w : widgets) (session : list Activity) :
  let session' := activities (world_of (script_run w session)) in
  (session' = session
   \/ session' = PyList.sort duration true session)
  \/ (submit_pressed w = true
      /\ exists a : Activity,
           session' = (session ++ [a])%list /\ consistent_activity a = true).
Proof.
  cbv zeta. unfold script_run. rewrite main_run. cbv zeta.
  cbn [activities rendered app]. unfold submit_pressed.
  destruct (w_page w); cbn [page_eqb andb].
  - rewrite add_activity_run. destruct (w_submitted w); [ | now left; left].
    match goal with
    | |- context [submitActivity ?n ?s ?e ?p ?w1] =>
        destruct (submitActivity_stored n s e p w1) as [E | (a & E & Ha)]
    end; rewrite E; cbn [activities].
    + now left; left.
    + right. split; [reflexivity | ]. now exists a.
  - rewrite display_activities_run. now left; left.
  - destruct session as [ | a l]; [now left; left | ].
    rewrite prioritize_then_summarize_run. now left; right.
Qed.

(** X11: after any interactions from the empty session, every stored
    activity has a name that is not empty, a start text below its end text,
    and a duration from 0 to 1439 that is what [calculate_duration] returns
    for its two texts. *)
Theorem stored_activities_consistent (ws : list widgets) :
  forallb consistent_activity (session_after ws initial_session) = true.
Proof.
  assert (Hgen : forall session,
             forallb consistent_activity session = true ->
             forallb consistent_activity (session_after ws session) = true).
  { induction ws as [ | w ws IH]; intros session Hall; [exact Hall | ].
    cbn [session_after]. apply IH.
    destruct (script_run_session w session) as [ [E | E] | (_ & a & E & Ha) ];
      rewrite E.
    - exact Hall.
    - apply forallb_forall. intros x Hx.
      apply (proj1 (forallb_forall _ _) Hall).
      eapply Permutation_in; [ | exact Hx].
      apply Permutation_sym, sort_reverse_perm.
    - rewrite forallb_app, Hall. cbn [forallb]. now rewrite Ha. }
  now apply Hgen.
Qed.

(** X12: the session after any interactions is a rearrangement of the
    session before them followed by the activities added, at most one for
    each pressed submit button: nothing is ever removed or altered. *)
Theorem session_only_grows (ws : list widgets) (session : list Activity) :
  exists added : list Activity,
    Permutation (session_after ws session) (session ++ added)
    /\ (List.length added <= List.length (filter submit_pressed ws))%nat.
Proof.
  revert session. induction ws as [ | w ws IH]; intros session.
  - exists []. rewrite app_nil_r. split; [apply Permutation_refl | apply Nat.le_refl].
  - cbn [session_after filter].
    destruct (IH (activities (world_of (script_run w session))))
      as (added & Hperm & Hlen).
    destruct (script_run_session w session) as [ [E | E] | (Hp & a & E & _) ];
      rewrite E in Hperm |- *.
    + exists added. split; [exact Hperm | ].
      destruct (submit_pressed w); cbn [List.length]; lia.
    + exists added. split.
      * eapply perm_trans; [exact Hperm | ].
        apply Permutation_app_tail, Permutation_sym, sort_reverse_perm.
      * destruct (submit_pressed w); cbn [List.length]; lia.
    + exists (a :: added). split.
      * now rewrite <- app_assoc in Hperm.
      * rewrite Hp. cbn [List.length]. lia.
Qed.

(** ** The listing *)

Lemma listing_title (l : list Activity) :
  forall (i k : nat) (a : Activity),
    nth_error l k = Some a ->
    nth_error (listing i l) (4 * k)
    = Some (st_write ("**" ++ str_nat (i + k + 1) ++ ". " ++ name a ++ "**")).
Proof.
  induction l as [ | b l IH]; intros i k a H.
  - destruct k; discriminate H.
  - destruct k as [ | k].
    + injection H as ->. rewrite Nat.add_0_r. reflexivity.
    + cbn [nth_error] in H.
      replace (4 * S k)%nat with (S (S (S (S (4 * k))))) by lia.
      cbn [listing activity_lines app nth_error].
      rewrite (IH (S i) k a H). do 4 f_equal. f_equal. lia.
Qed.

(** X13: on the page "View Activities" the activity at position [k] of the
    session (counted from 0) is headed by the line numbered [k + 1] with
    its name, four elements on from the heading of the one before: the
    listing follows the session order and numbers from 1. *)
Theorem display_activities_numbering (w : widgets) (session : list Activity)
        (k : nat) (a : Activity) :
  w_page w = View_Activities ->
  nth_error session k = Some a ->
  nth_error (rendered (world_of (script_run w session))) (4 + 4 * k)
  = Some (st_write ("**" ++ str_nat (k + 1) ++ ". " ++ name a ++ "**")).
Proof.
  intros Hp Hk. rewrite (script_run_view w session Hp).
  cbn [world_of rendered banner app display_lines nth_error Nat.add].
  destruct session as [ | b l]; [destruct k; discriminate Hk | ].
  apply (listing_title (b :: l) 0 k a Hk).
Qed.

Lemma display_activities_numbering_witness :
  nth_error
    (rendered
       (world_of
          (script_run (mk_widgets View_Activities "" "" "" High false)
                      [mk_activity "Run" "06:00" "07:00" High 60;
                       mk_activity "Read" "20:00" "21:00" Low 60])))
    (4 + 4 * 1)
  = Some (st_write ("**" ++ str_nat (1 + 1) ++ ". "
                      ++ name (mk_activity "Read" "20:00" "21:00" Low 60)
                      ++ "**")).
Proof.
  apply (display_activities_numbering
           (mk_widgets View_Activities "" "" "" High false)
           [mk_activity "Run" "06:00" "07:00" High 60;
            mk_activity "Read" "20:00" "21:00" Low 60] 1);
    reflexivity.
Defined.

(** X14: on the page "Prioritize & Summarize" with at least one activity the
    script returns with the session sorted and a page made of the banner,
    the listing of the sorted session and the summary for the number of
    activities the session had, whatever the form's widgets hold. *)
Theorem script_run_prioritize_page
        (activity_name start_time end_time : string) (priority : Priority)
        (submitted : bool) (a : Activity) (l : list Activity) :
  script_run (mk_widgets Prioritize_and_Summarize activity_name start_time
                         end_time priority submitted) (a :: l)
  = Returned tt
      (mk_world
         (PyList.sort duration true (a :: l))
         (banner
          ++ st_write "### Suggested Activity Prioritization"
          :: listing 0 (PyList.sort duration true (a :: l))
          ++ summary_lines (S (List.length l)))).
Proof.
  unfold script_run. rewrite main_run. cbv zeta.
  cbn [w_page activities rendered].
  rewrite prioritize_then_summarize_run. cbv zeta.
  cbn [activities rendered].
  rewrite sort_reverse_length. cbn [List.length app]. reflexivity.
Qed.
